(** * Expense tracker: monthly ingestion, aggregation and filtering

    A shallow embedding of [expensetracker.py].  The script keeps one CSV
    file and one SQLite table per calendar month, and renders its results
    through Streamlit.  The embedding follows the script function by
    function:

    - the persistent store is a finite map from table names to tables,
      the [data] directory a finite map from paths to parsed CSV files;
    - every function of the script is a computation in a small
      state-and-exception monad ([script]) over that world, the Streamlit
      calls being recorded in the order in which they are made;
    - SQL text is built character by character as the script builds it,
      and is run through a small evaluator for the two shapes of query the
      script issues;
    - what the script does not decide itself (the order SQLite gives to
      rows that tie under ORDER BY, the random sources) is a parameter
      ([externals]).

    REAL columns and Python floats are modelled as exact numbers: stored
    amounts are counted in hundredths (the unit produced by
    [round(_, 2)]), and the value of [random.uniform] is a rational. *)

From Stdlib Require Import ZArith QArith List String Ascii Lia DecimalString.
From Stdlib Require Import Sorting.Sorted Sorting.Permutation.
From stdpp Require Import base gmap strings list fin_maps sorting.

Local Open Scope nat_scope.

(** ** Python formatting helpers *)

Module Py.

(** [str(n)] for a non-negative integer. *)
Definition str (n : nat) : string :=
  NilEmpty.string_of_uint (Nat.to_uint n).

(** [s.rjust(width, "0")]: pad with zeros on the left. *)
Fixpoint zeros (k : nat) (s : string) : string :=
  match k with
  | 0 => s
  | S k' => String "0"%char (zeros k' s)
  end.

(** The format specification [:02d]. *)
Definition format_02d (n : nat) : string :=
  let s := str n in zeros (2 - String.length s) s.

(** The format specification [:04d] (used by [date.isoformat]). *)
Definition format_04d (n : nat) : string :=
  let s := str n in zeros (4 - String.length s) s.

(** [sep.join(parts)]. *)
Definition join (sep : string) (parts : list string) : string :=
  String.concat sep parts.

(** [range(a, b)]. *)
Definition range (a b : nat) : list nat := seq a (b - a).

(** The newline character of a triple-quoted literal. *)
Definition nl : string := String (ascii_of_nat 10) EmptyString.

(** [datetime.date], and [str(d)], which is [d.isoformat()]. *)
Record date := { year : nat; month_of_year : nat; day : nat }.

Definition isoformat (d : date) : string :=
  format_04d (year d) +:+ "-" +:+ format_02d (month_of_year d)
    +:+ "-" +:+ format_02d (day d).

End Py.

(** ** Data model *)

(** One CSV line / one record of a monthly table, without its key.  The
    columns are those of the CREATE TABLE statement; every column is
    nullable ([None] is SQL NULL, an empty CSV cell).  [Amount_Paid] and
    [Cashback] are counted in hundredths. *)
Record expense := {
  Date : option string;
  Category : option string;
  Payment_Mode : option string;
  Description : option string;
  Amount_Paid : option Z;
  Cashback : option Z
}.

(** A stored record: [ID INTEGER PRIMARY KEY] and the six data columns. *)
Record row := { ID : Z; fields : expense }.

(** One line of the aggregate: [Category, SUM(Amount_Paid) AS Total_Spent]. *)
Record total_row := { group_Category : option string; Total_Spent : option Z }.

#[global] Instance expense_eq_dec : EqDecision expense.
Proof. solve_decision. Defined.
#[global] Instance row_eq_dec : EqDecision row.
Proof. solve_decision. Defined.
#[global] Instance total_row_eq_dec : EqDecision total_row.
Proof. solve_decision. Defined.

(** Exceptions the script can raise. *)
Inductive error :=
| DatabaseError_no_such_table (name : string)
| DatabaseError_syntax (sql : string)
| FileNotFoundError (path : string)
| IndexError.

Inductive outcome (A : Type) :=
| Ok (a : A)
| Raised (e : error).
Arguments Ok {A} a.
Arguments Raised {A} e.

(** What [pd.read_sql_query] returns: the records of the monthly tables, or
    the lines of the aggregate. *)
Inductive dataframe :=
| Records (rows : list row)
| Totals (rows : list total_row).

(** Streamlit elements, as they appear on the page. *)
Inductive element :=
| Title (text : string)
| Subheader (text : string)
| Success (text : string)
| Warning (text : string)
| Selectbox (label : string) (options : list string)
| Multiselect (label : string) (options : list string)
| Date_input (label : string)
| Button (label : string)
| Dataframe (df : dataframe)
| Altair_chart (df : dataframe)
| Download_button (label : string) (data : dataframe) (file_name mime : string).

(** What the user has entered in the widgets during one run of the script,
    by widget label. *)
Record widgets := {
  selectbox : string -> string;
  button : string -> bool;
  multiselect : string -> list string;
  date_input : string -> Py.date
}.

(** What the script leaves to its libraries:
    - [sqlite_order_by]: the order in which SQLite returns the groups for
      [ORDER BY Total_Spent DESC];
    - [random_raw]: the n-th raw draw of the random generators;
    - [faker_date_this_year], [faker_sentence]: Faker's values, as the text
      that [to_csv] writes for them. *)
Record externals := {
  sqlite_order_by : list total_row -> list total_row;
  random_raw : N -> N;
  faker_date_this_year : N -> string;
  faker_sentence : N -> string
}.

(** The world the script runs in: the CSV files under [data/], the tables
    of [data/expenses.db], the position in the random stream and the page
    rendered so far. *)
Record state := {
  files : gmap string (list expense);
  db : gmap string (list row);
  cursor : N;
  page : list element
}.

(** ** The script monad: state and exceptions *)

Definition script (A : Type) : Type := state -> outcome A * state.

#[global] Instance script_ret : MRet script := fun A a s => (Ok a, s).

#[global] Instance script_bind : MBind script := fun A B f m s =>
  match m s with
  | (Ok a, s') => f a s'
  | (Raised e, s') => (Raised e, s')
  end.

Definition raise {A : Type} (e : error) : script A := fun s => (Raised e, s).

(** [for x in xs: body(x)]. *)
Fixpoint for_each {A : Type} (xs : list A) (body : A -> script unit) : script unit :=
  match xs with
  | [] => mret tt
  | x :: xs' => body x ;; for_each xs' body
  end.

(** [data = []; for _ in range(n): data.append(item())]. *)
Fixpoint collect {A : Type} (n : nat) (item : script A) : script (list A) :=
  match n with
  | 0 => mret []
  | S n' => x ← item; rest ← collect n' item; mret (x :: rest)
  end.

(** Calling a Streamlit element renders it at the end of the page. *)
Definition st (c : element) : script unit := fun s =>
  (Ok tt, {| files := files s; db := db s; cursor := cursor s;
             page := page s ++ [c] |}).

Definition get_db : script (gmap string (list row)) := fun s => (Ok (db s), s).

Definition put_db (d : gmap string (list row)) : script unit := fun s =>
  (Ok tt, {| files := files s; db := d; cursor := cursor s; page := page s |}).

(** ** The [data] directory *)

Definition directory : string := "data".

(** [directory / name], as a path. *)
Definition in_directory (name : string) : string := directory +:+ "/" +:+ name.

(** [f"expenses_{month}.csv"]. *)
Definition file_name (month : nat) : string :=
  "expenses_" +:+ Py.str month +:+ ".csv".

Definition file_path (month : nat) : string := in_directory (file_name month).

(** [file_path.exists()]. *)
Definition path_exists (p : string) : script bool := fun s =>
  (Ok (bool_decide (is_Some (files s !! p))), s).

(** [pd.read_csv(path)]: the parsed lines of the file. *)
Definition pd_read_csv (p : string) : script (list expense) := fun s =>
  match files s !! p with
  | Some data => (Ok data, s)
  | None => (Raised (FileNotFoundError p), s)
  end.

(** [df.to_csv(path, index=False)]: writes the file, replacing an existing
    one. *)
Definition to_csv (p : string) (data : list expense) : script unit := fun s =>
  (Ok tt, {| files := <[p := data]> (files s); db := db s;
             cursor := cursor s; page := page s |}).

(** ** The store [data/expenses.db] *)

(** [f"Expenses_{month:02d}"]. *)
Definition table_name (month : nat) : string :=
  "Expenses_" +:+ Py.format_02d month.

(** [CREATE TABLE IF NOT EXISTS name (...)]. *)
Definition execute_create_table_if_not_exists (name : string) : script unit :=
  d ← get_db;
  match d !! name with
  | Some _ => mret tt
  | None => put_db (<[name := []]> d)
  end.

(** The key SQLite gives to a record inserted without one: 1 in an empty
    table, otherwise one more than the largest key in use. *)
Definition next_id (t : list row) : Z :=
  match map ID t with
  | [] => 1
  | i :: ids => 1 + fold_right Z.max i ids
  end%Z.

(** INSERT of the lines of a data frame, one after the other. *)
Fixpoint insert_rows (t : list row) (data : list expense) : list row :=
  match data with
  | [] => t
  | e :: data' => insert_rows (t ++ [{| ID := next_id t; fields := e |}]) data'
  end.

(** [data.to_sql(name, conn, if_exists="append", index=False)]: appends to
    the table, which pandas creates first when it does not exist. *)
Definition to_sql_append (name : string) (data : list expense) : script unit :=
  d ← get_db;
  put_db (<[name := insert_rows (default [] (d !! name)) data]> d).

(** ** create_tables *)

Definition create_tables : script unit :=
  for_each (Py.range 1 13) (fun month =>
    execute_create_table_if_not_exists (table_name month)) ;;
  st (Success "Tables created for all 12 months.").

(** ** insert_data *)

Definition insert_month (month : nat) : script unit :=
  found ← path_exists (file_path month);
  if negb found
  then st (Warning ("File not found: " +:+ file_name month +:+ ". Skipping..."))
  else
    data ← pd_read_csv (file_path month);
    to_sql_append (table_name month) data.

Definition insert_data : script unit :=
  for_each (Py.range 1 13) insert_month ;;
  st (Success "Data inserted into all available monthly tables.").

(** ** Numbers of the generator *)

(** [round(x, 2)], in hundredths: the integer nearest to [100 x], the even
    one when two are equally near. *)
Definition round_half_even (n d : Z) : Z :=
  let q := (n / d)%Z in
  let r := (n mod d)%Z in
  if (2 * r <? d)%Z then q
  else if (d <? 2 * r)%Z then (q + 1)%Z
  else if Z.even q then q else (q + 1)%Z.

Definition round2 (x : Q) : Z :=
  let y := (x * 100)%Q in round_half_even (Qnum y) (Z.pos (Qden y)).

(** [random.random()]: a multiple of 2^-53 in [0, 1). *)
Definition unit_interval (raw : N) : Q :=
  Z.of_N (raw mod 2 ^ 53) # 2 ^ 53.

Definition categories : list string :=
  ["Food"; "Transportation"; "Bills"; "Groceries"; "Subscriptions"; "Others"].

Definition payment_modes : list string := ["Cash"; "Online"].

(** ** The SQL the script issues *)

Module Sql.

(** The TEXT columns of a monthly table. *)
Inductive text_column := Col_Date | Col_Category | Col_Payment_Mode | Col_Description.

Definition column_name (c : text_column) : string :=
  match c with
  | Col_Date => "Date"
  | Col_Category => "Category"
  | Col_Payment_Mode => "Payment_Mode"
  | Col_Description => "Description"
  end.

Definition text_value (c : text_column) (r : row) : option string :=
  match c with
  | Col_Date => Date (fields r)
  | Col_Category => Category (fields r)
  | Col_Payment_Mode => Payment_Mode (fields r)
  | Col_Description => Description (fields r)
  end.

(** The terms of a WHERE clause. *)
Inductive condition :=
| Between (c : text_column) (low high : string)
| In_list (c : text_column) (values : list string).

(** The two shapes of statement:
    [SELECT * FROM (t1 UNION ALL ...) WHERE w AND w1 AND ...], and
    [SELECT Category, SUM(Amount_Paid) AS Total_Spent FROM (t1 UNION ALL ...)
     GROUP BY Category ORDER BY Total_Spent DESC]. *)
Inductive statement :=
| Select_star (tables : list string) (where_ : condition) (and_ : list condition)
| Select_totals (tables : list string).

(** *** Text of a statement, laid out as the script lays it out *)

Definition quote (s : string) : string := "'" +:+ s +:+ "'".

Definition sql_of_condition (w : condition) : string :=
  match w with
  | Between c low high =>
      column_name c +:+ " BETWEEN " +:+ quote low +:+ " AND " +:+ quote high
  | In_list c values =>
      column_name c +:+ " IN (" +:+ Py.join ", " (map quote values) +:+ ")"
  end.

Definition sql_of_union_all (tables : list string) : string :=
  Py.join " UNION ALL " (map (fun t => "SELECT * FROM " +:+ t) tables).

Definition sql_of (q : statement) : string :=
  match q with
  | Select_star tables where_ and_ =>
      Py.nl +:+ "    SELECT *" +:+ Py.nl +:+ "    FROM (" +:+ Py.nl +:+ "        "
      +:+ sql_of_union_all tables
      +:+ Py.nl +:+ "    ) AS Combined" +:+ Py.nl
      +:+ "    WHERE " +:+ sql_of_condition where_ +:+ Py.nl +:+ "    "
      +:+ String.concat "" (map (fun w => " AND " +:+ sql_of_condition w) and_)
  | Select_totals tables =>
      Py.nl +:+ "    SELECT Category, SUM(Amount_Paid) AS Total_Spent" +:+ Py.nl
      +:+ "    FROM (" +:+ Py.nl +:+ "        "
      +:+ sql_of_union_all tables
      +:+ Py.nl +:+ "    ) AS Combined" +:+ Py.nl
      +:+ "    GROUP BY Category" +:+ Py.nl
      +:+ "    ORDER BY Total_Spent DESC;" +:+ Py.nl +:+ "    "
  end.

(** *** Meaning of a statement *)

(** [SELECT * FROM t1 UNION ALL SELECT * FROM t2 ...]: the records of the
    tables one after the other; it is an error to name a table that does
    not exist. *)
Fixpoint union_all (d : gmap string (list row)) (tables : list string)
  : outcome (list row) :=
  match tables with
  | [] => Ok []
  | t :: tables' =>
      match d !! t with
      | None => Raised (DatabaseError_no_such_table t)
      | Some rows =>
          match union_all d tables' with
          | Ok rest => Ok (rows ++ rest)
          | Raised e => Raised e
          end
      end
  end.

(** A condition on a NULL is not true.  Text is compared byte by byte;
    [x BETWEEN low AND high] is [x >= low AND x <= high]. *)
Definition holds (w : condition) (r : row) : bool :=
  match w with
  | Between c low high =>
      match text_value c r with
      | Some x => String.leb low x && String.leb x high
      | None => false
      end
  | In_list c values =>
      match text_value c r with
      | Some x => bool_decide (x ∈ values)
      | None => false
      end
  end.

(** [SUM(x)]: NULL when no value is non-NULL, otherwise the sum of the
    non-NULL values. *)
Definition sum (xs : list (option Z)) : option Z :=
  match omap id xs with
  | [] => None
  | v :: vs => Some (fold_right Z.add 0%Z (v :: vs))
  end.

(** [GROUP BY Category] with [SUM(Amount_Paid)]: one line per distinct
    value of the column (NULL is one of them). *)
Definition in_group (c : option string) (r : row) : bool :=
  bool_decide (Category (fields r) = c).

Definition group_by_Category (rows : list row) : list total_row :=
  map (fun c =>
         {| group_Category := c;
            Total_Spent :=
              sum (map (fun r => Amount_Paid (fields r))
                       (List.filter (in_group c) rows)) |})
      (remove_dups (map (fun r => Category (fields r)) rows)).

(** The order of REAL values, NULL before every number. *)
Definition real_le (x y : option Z) : Prop :=
  match x, y with
  | None, _ => True
  | Some _, None => False
  | Some a, Some b => (a <= b)%Z
  end.

#[global] Instance real_le_dec : RelDecision real_le.
Proof. intros [x|] [y|]; simpl; apply _. Defined.

(** [ORDER BY Total_Spent DESC] asks for this of a line and a later
    line. *)
Definition by_Total_Spent_desc (a b : total_row) : Prop :=
  real_le (Total_Spent b) (Total_Spent a).

#[global] Instance by_Total_Spent_desc_dec : RelDecision by_Total_Spent_desc.
Proof. intros a b. unfold by_Total_Spent_desc. apply _. Defined.


Definition run (order_by : list total_row -> list total_row)
    (d : gmap string (list row)) (q : statement) : outcome dataframe :=
  match q with
  | Select_star tables where_ and_ =>
      match union_all d tables with
      | Ok rows =>
          Ok (Records (List.filter
                         (fun r => holds where_ r && forallb (fun w => holds w r) and_)
                         rows))
      | Raised e => Raised e
      end
  | Select_totals tables =>
      match union_all d tables with
      | Ok rows => Ok (Totals (order_by (group_by_Category rows)))
      | Raised e => Raised e
      end
  end.

End Sql.

(** ** The script *)

Section Script.

Variable X : externals.
Variable ui : widgets.

(** *** Streamlit *)

Definition st_title (text : string) : script unit := st (Title text).
Definition st_subheader (text : string) : script unit := st (Subheader text).
Definition st_success (text : string) : script unit := st (Success text).
Definition st_warning (text : string) : script unit := st (Warning text).
Definition st_dataframe (df : dataframe) : script unit := st (Dataframe df).
Definition st_altair_chart (df : dataframe) : script unit := st (Altair_chart df).

Definition st_download_button (label : string) (data : dataframe)
    (file_name mime : string) : script unit :=
  st (Download_button label data file_name mime).

Definition st_sidebar_selectbox (label : string) (options : list string)
  : script string :=
  st (Selectbox label options) ;; mret (selectbox ui label).

(** A multiselect returns some of its options. *)
Definition st_sidebar_multiselect (label : string) (options : list string)
  : script (list string) :=
  st (Multiselect label options) ;;
  mret (List.filter (fun x => bool_decide (x ∈ options)) (multiselect ui label)).

Definition st_sidebar_date_input (label : string) : script Py.date :=
  st (Date_input label) ;; mret (date_input ui label).

Definition st_button (label : string) : script bool :=
  st (Button label) ;; mret (button ui label).

(** *** Random values *)

Definition next_raw : script N := fun s =>
  (Ok (random_raw X (cursor s)),
   {| files := files s; db := db s; cursor := N.succ (cursor s); page := page s |}).

(** [random.choice(seq)]. *)
Definition random_choice (seq : list string) : script string :=
  raw ← next_raw;
  match seq !! N.to_nat (raw mod N.of_nat (length seq)) with
  | Some x => mret x
  | None => raise IndexError
  end.

(** [random.uniform(a, b)], which is [a + (b - a) * random()]. *)
Definition random_uniform (a b : Q) : script Q :=
  raw ← next_raw;
  mret (a + (b - a) * unit_interval raw)%Q.

Definition fake_date_this_year : script string :=
  raw ← next_raw; mret (faker_date_this_year X raw).

Definition fake_sentence : script string :=
  raw ← next_raw; mret (faker_sentence X raw).

(** *** generate_sample_data *)

Definition sample_record : script expense :=
  date ← fake_date_this_year;
  category ← random_choice categories;
  payment_mode ← random_choice payment_modes;
  description ← fake_sentence;
  amount_paid ← random_uniform 10 500;
  cashback ← random_uniform 0 20;
  mret {| Date := Some date;
          Category := Some category;
          Payment_Mode := Some payment_mode;
          Description := Some description;
          Amount_Paid := Some (round2 amount_paid);
          Cashback := Some (round2 cashback) |}.

Definition generate_month (month : nat) : script unit :=
  data ← collect 500 sample_record;
  to_csv (file_path month) data.

Definition generate_sample_data : script unit :=
  for_each (Py.range 1 13) generate_month ;;
  st_success "Sample data generated for all 12 months.".

(** *** Queries *)

(** [pd.read_sql_query(query, conn)].  SQLite parses the text; here the
    text comes with its reading, which is checked against it. *)
Definition pd_read_sql_query (query : string) (reading : Sql.statement)
  : script dataframe := fun s =>
  if decide (Sql.sql_of reading = query)
  then (Sql.run (sqlite_order_by X) (db s) reading, s)
  else (Raised (DatabaseError_syntax query), s).

(** [[f"Expenses_{month:02d}" for month in range(1, 13)]]. *)
Definition monthly_tables : list string := map table_name (Py.range 1 13).

(** [" UNION ALL ".join([f"SELECT * FROM Expenses_{month:02d}" ...])]. *)
Definition union_of_months : string :=
  Py.join " UNION ALL "
    (map (fun month => "SELECT * FROM Expenses_" +:+ Py.format_02d month)
         (Py.range 1 13)).

(** *** show_total_spending *)

Definition total_spending_query : string :=
  (Py.nl +:+ "    SELECT Category, SUM(Amount_Paid) AS Total_Spent" +:+ Py.nl
   +:+ "    FROM (" +:+ Py.nl +:+ "        ")
  +:+ union_of_months
  +:+ (Py.nl +:+ "    ) AS Combined" +:+ Py.nl
       +:+ "    GROUP BY Category" +:+ Py.nl
       +:+ "    ORDER BY Total_Spent DESC;" +:+ Py.nl +:+ "    ").

Definition show_total_spending : script unit :=
  let query := total_spending_query in
  df ← pd_read_sql_query query (Sql.Select_totals monthly_tables);
  st_subheader "Total Spending by Category" ;;
  st_dataframe df ;;
  st_altair_chart df.

(** *** interactive_dashboard *)

(** The text of the query.  Only the first of the three pieces added
    together is an f-string, and it has no replacement field; the third
    piece is an ordinary literal, so its braces are kept as they are. *)
Definition dashboard_query (start_date end_date : Py.date)
    (category_filter payment_mode_filter : list string) : string :=
  let query :=
    (Py.nl +:+ "    SELECT *" +:+ Py.nl +:+ "    FROM (" +:+ Py.nl +:+ "        ")
    +:+ union_of_months
    +:+ (Py.nl +:+ "    ) AS Combined" +:+ Py.nl
         +:+ "    WHERE Date BETWEEN '{start_date}' AND '{end_date}'" +:+ Py.nl
         +:+ "    ") in
  let query :=
    match category_filter with
    | [] => query
    | _ :: _ =>
        query +:+ (" AND Category IN ("
                   +:+ Py.join ", " (map (fun cat => "'" +:+ cat +:+ "'") category_filter)
                   +:+ ")")
    end in
  let query :=
    match payment_mode_filter with
    | [] => query
    | _ :: _ =>
        query +:+ (" AND Payment_Mode IN ("
                   +:+ Py.join ", " (map (fun mode => "'" +:+ mode +:+ "'") payment_mode_filter)
                   +:+ ")")
    end in
  query.

(** The reading of that text. *)
Definition dashboard_reading (category_filter payment_mode_filter : list string)
  : Sql.statement :=
  Sql.Select_star monthly_tables
    (Sql.Between Sql.Col_Date "{start_date}" "{end_date}")
    ((match category_filter with
      | [] => []
      | _ :: _ => [Sql.In_list Sql.Col_Category category_filter]
      end)
     ++
     (match payment_mode_filter with
      | [] => []
      | _ :: _ => [Sql.In_list Sql.Col_Payment_Mode payment_mode_filter]
      end)).

Definition interactive_dashboard : script unit :=
  category_filter ← st_sidebar_multiselect "Select Categories"
    ["Food"; "Transportation"; "Bills"; "Groceries"; "Subscriptions"; "Others"];
  payment_mode_filter ← st_sidebar_multiselect "Select Payment Modes"
    ["Cash"; "Online"];
  start_date ← st_sidebar_date_input "Start Date";
  end_date ← st_sidebar_date_input "End Date";
  let query :=
    dashboard_query start_date end_date category_filter payment_mode_filter in
  df ← pd_read_sql_query query
         (dashboard_reading category_filter payment_mode_filter);
  st_subheader "Filtered Expenses" ;;
  st_dataframe df ;;
  let csv := df in
  st_download_button "Download Filtered Data as CSV" csv
    "filtered_expenses.csv" "text/csv".

(** *** The Streamlit application *)

Definition menu : list string :=
  ["Generate Sample Data"; "Create Tables"; "Insert Data"; "View Spending";
   "Interactive Dashboard"].

Definition application : script unit :=
  st_title "Expense Tracker Application" ;;
  choice ← st_sidebar_selectbox "Menu" menu;
  if String.eqb choice "Generate Sample Data" then
    st_subheader "Generate Sample Data for Testing" ;;
    pressed ← st_button "Generate Data";
    if pressed : bool then generate_sample_data else mret tt
  else if String.eqb choice "Create Tables" then
    st_subheader "Create Tables for Monthly Expenses" ;;
    pressed ← st_button "Create Tables";
    if pressed : bool then create_tables else mret tt
  else if String.eqb choice "Insert Data" then
    st_subheader "Insert Monthly Expense Data" ;;
    pressed ← st_button "Insert Data";
    if pressed : bool then insert_data else mret tt
  else if String.eqb choice "View Spending" then
    st_subheader "View Total Spending by Category" ;;
    show_total_spending
  else if String.eqb choice "Interactive Dashboard" then
    st_subheader "Explore and Analyze Expenses" ;;
    interactive_dashboard
  else mret tt.

(** The test of the last statement of the module: two string literals
    are compared; the variable [__name__] does not occur in it. *)
Definition entry_guard : bool := String.eqb "__name_ " "__main__".

(** Running the module, [__name__] being bound to [dunder_name]. *)
Definition module_body (dunder_name : string) : script unit :=
  if entry_guard then application else mret tt.

End Script.

(** ** Notions used in the statements *)

(** The state a script leaves, and what it returns or raises. *)
Definition exec {A : Type} (m : script A) (s : state) : state := snd (m s).
Definition result {A : Type} (m : script A) (s : state) : outcome A := fst (m s).

(** The records of the table of a month (none when the table does not
    exist). *)
Definition stored (s : state) (month : nat) : list row :=
  default [] (db s !! table_name month).

Definition all_tables_exist (s : state) : Prop :=
  Forall (fun month => is_Some (db s !! table_name month)) (Py.range 1 13).

(** The twelve tables, one after the other. *)
Definition union_of_tables (s : state) : list row :=
  concat (map (stored s) (Py.range 1 13)).

(** The two digits of a month number. *)
Definition digit (n : nat) : ascii := ascii_of_nat (48 + n).

Definition two_digits (month : nat) : string :=
  String (digit (month / 10)) (String (digit (month mod 10)) EmptyString).

(** A world with no file and no table. *)
Definition empty_state : state :=
  {| files := ∅; db := ∅; cursor := 0; page := [] |}.

(** The warning of [insert_data] for a month. *)
Definition missing_file_warning (month : nat) : element :=
  Warning ("File not found: " +:+ file_name month +:+ ". Skipping...").

(** The warnings of one run of [insert_data], in the order of the months. *)
Definition missing_file_warnings (fs : gmap string (list expense))
    (months : list nat) : list element :=
  flat_map (fun month =>
              match fs !! file_path month with
              | Some _ => []
              | None => [missing_file_warning month]
              end) months.

(** What is expected of a generated line: a category and a payment mode
    of the two fixed lists, an amount between 10.00 and 500.00 and a
    cashback between 0.00 and 20.00 (in hundredths). *)
Definition sample_ok (e : expense) : Prop :=
  (exists c, Category e = Some c /\ c ∈ categories)
  /\ (exists p, Payment_Mode e = Some p /\ p ∈ payment_modes)
  /\ (exists a, Amount_Paid e = Some a /\ (1000 <= a <= 50000)%Z)
  /\ (exists b, Cashback e = Some b /\ (0 <= b <= 2000)%Z).

(** [draws m P]: the script [m] only consumes random values; it returns a
    value that satisfies [P] and leaves files, tables and page alone. *)
Definition draws {A : Type} (m : script A) (P : A -> Prop) : Prop :=
  forall s, exists a s',
    m s = (Ok a, s')
    /\ files s' = files s /\ db s' = db s /\ page s' = page s /\ P a.



(** [page_grows m]: the script [m] only adds to the page. *)
Definition page_grows {A : Type} (m : script A) : Prop :=
  forall s, exists rest, page (exec m s) = page s ++ rest.

(** ** Example worlds *)

(** Two expenses of 100.00. *)
Definition lunch : expense :=
  {| Date := Some "2024-01-15"; Category := Some "Food";
     Payment_Mode := Some "Cash"; Description := Some "Lunch.";
     Amount_Paid := Some 10000%Z; Cashback := Some 0%Z |}.

Definition rent : expense :=
  {| Date := Some "2024-02-01"; Category := Some "Bills";
     Payment_Mode := Some "Online"; Description := Some "Rent.";
     Amount_Paid := Some 10000%Z; Cashback := Some 150%Z |}.

(** Files for January and March only, and no table yet. *)
Definition two_files : state :=
  {| files := {[ file_path 1 := [lunch; rent; lunch]; file_path 3 := [rent] ]};
     db := ∅; cursor := 0; page := [] |}.

(** The same after Create Tables and Insert Data. *)
Definition two_files_loaded : state :=
  exec insert_data (exec create_tables two_files).

(** One lunch in January, loaded. *)
Definition one_lunch_loaded : state :=
  exec insert_data
    (exec create_tables
       {| files := {[ file_path 1 := [lunch] ]}; db := ∅; cursor := 0; page := [] |}).



(** An SQLite that sorts with a merge sort on the key of ORDER BY, and
    simple random sources. *)
Definition merge_sorting : externals :=
  {| sqlite_order_by := merge_sort Sql.by_Total_Spent_desc;
     random_raw := fun n => (n * 7919000000000000 + 13)%N;
     faker_date_this_year := fun _ => "2024-03-05";
     faker_sentence := fun _ => "Hello." |}.

(** No filter selected, and the whole of 2024 as date range. *)
Definition whole_year_2024 : widgets :=
  {| selectbox := fun _ => "Interactive Dashboard";
     button := fun _ => false;
     multiselect := fun _ => [];
     date_input := fun label =>
       if String.eqb label "Start Date"
       then {| Py.year := 2024; Py.month_of_year := 1; Py.day := 1 |}
       else {| Py.year := 2024; Py.month_of_year := 12; Py.day := 31 |} |}.

(** Food selected, in two different date ranges. *)
Definition food_in_2024 : widgets :=
  {| selectbox := fun _ => "Interactive Dashboard";
     button := fun _ => false;
     multiselect := fun label =>
       if String.eqb label "Select Categories" then ["Food"] else [];
     date_input := date_input whole_year_2024 |}.

Definition food_in_1999 : widgets :=
  {| selectbox := fun _ => "Interactive Dashboard";
     button := fun _ => false;
     multiselect := fun label =>
       if String.eqb label "Select Categories" then ["Food"] else [];
     date_input := fun _ =>
       {| Py.year := 1999; Py.month_of_year := 6; Py.day := 15 |} |}.

(** [keeps_store m]: the script [m] changes neither the files nor the
    tables, whatever it returns or raises. *)
Definition keeps_store {A : Type} (m : script A) : Prop :=
  forall s, files (exec m s) = files s /\ db (exec m s) = db s.




(** A user who selects a menu entry and presses no button. *)
Definition viewing_spending : widgets :=
  {| selectbox := fun _ => "View Spending";
     button := fun _ => false;
     multiselect := fun _ => [];
     date_input := date_input whole_year_2024 |}.

(** A user who selects a menu entry and presses every button. *)
Definition pressing (choice : string) : widgets :=
  {| selectbox := fun _ => choice;
     button := fun _ => true;
     multiselect := fun _ => [];
     date_input := date_input whole_year_2024 |}.

(** * Properties *)

(** ** The script monad *)

Lemma bind_ok {A B : Type} (m : script A) (f : A -> script B) s a s' :
  m s = (Ok a, s') -> (m ≫= f) s = f a s'.
Proof. intros H. unfold mbind, script_bind. by rewrite H. Qed.

Lemma bind_raised {A B : Type} (m : script A) (f : A -> script B) s e s' :
  m s = (Raised e, s') -> (m ≫= f) s = (Raised e, s').
Proof. intros H. unfold mbind, script_bind. by rewrite H. Qed.

Lemma for_each_cons {A : Type} (x : A) xs body s s' :
  body x s = (Ok tt, s') ->
  for_each (x :: xs) body s = for_each xs body s'.
Proof. intros H. simpl. by rewrite (bind_ok _ _ _ _ _ H). Qed.

(** ** Names of tables and files *)

Lemma range_1_13 : Py.range 1 13 = [1; 2; 3; 4; 5; 6; 7; 8; 9; 10; 11; 12].
Proof. reflexivity. Qed.

Lemma elem_of_range_1_13 (month : nat) :
  month ∈ Py.range 1 13 <-> 1 <= month <= 12.
Proof.
  unfold Py.range. rewrite elem_of_seq. lia.
Qed.

Lemma table_names_NoDup : NoDup (map table_name (Py.range 1 13)).
Proof. compute_done. Qed.

Lemma file_paths_NoDup : NoDup (map file_path (Py.range 1 13)).
Proof. compute_done. Qed.

Lemma table_name_two_digits (month : nat) :
  1 <= month <= 12 -> table_name month = "Expenses_" +:+ two_digits month.
Proof.
  intros H.
  assert (Hm : month ∈ Py.range 1 13) by by apply elem_of_range_1_13.
  rewrite range_1_13 in Hm.
  repeat (apply elem_of_cons in Hm as [-> | Hm]; [reflexivity |]).
  by apply elem_of_nil in Hm.
Qed.
(** ** create_tables *)

Lemma create_one (name : string) (s : state) :
  exists s1,
    execute_create_table_if_not_exists name s = (Ok tt, s1)
    /\ files s1 = files s /\ cursor s1 = cursor s /\ page s1 = page s
    /\ forall n, db s1 !! n =
         if decide (n = name) then Some (default [] (db s !! n)) else db s !! n.
Proof.
  unfold execute_create_table_if_not_exists, mbind, script_bind, get_db.
  destruct (db s !! name) as [t|] eqn:Hname.
  - exists s. split_and!; try done. intros n.
    case_decide as Hn; [subst n; by rewrite Hname | done].
  - eexists. split; [reflexivity |]. simpl. split_and!; try done. intros n.
    case_decide as Hn.
    + subst n. by rewrite lookup_insert_eq, Hname.
    + by rewrite lookup_insert_ne.
Qed.

Lemma create_loop (months : list nat) (s : state) :
  exists s',
    for_each months (fun month =>
      execute_create_table_if_not_exists (table_name month)) s = (Ok tt, s')
    /\ files s' = files s /\ cursor s' = cursor s /\ page s' = page s
    /\ forall n, db s' !! n =
         if decide (n ∈ map table_name months)
         then Some (default [] (db s !! n)) else db s !! n.
Proof.
  revert s. induction months as [|month months IH]; intros s.
  - exists s. split_and!; try done.
  - destruct (create_one (table_name month) s) as (s1 & Hrun & Hf & Hc & Hp & Hdb).
    destruct (IH s1) as (s' & Hrun' & Hf' & Hc' & Hp' & Hdb').
    exists s'. cbn [for_each]. rewrite (bind_ok _ _ _ _ _ Hrun).
    split_and!; try congruence.
    intros n. rewrite Hdb', !Hdb. simpl map.
    destruct (decide (n = table_name month)) as [-> | Hne].
    + rewrite (decide_True (P := _ ∈ _ :: _)) by left.
      by destruct (decide (table_name month ∈ map table_name months)).
    + destruct (decide (n ∈ map table_name months)) as [Hin | Hnin].
      * by rewrite decide_True by (by right).
      * rewrite decide_False; [done |].
        by intros [? | ?]%elem_of_cons.
Qed.

Lemma create_tables_spec (s : state) :
  exists s',
    create_tables s = (Ok tt, s')
    /\ files s' = files s /\ cursor s' = cursor s
    /\ page s' = page s ++ [Success "Tables created for all 12 months."]
    /\ forall n, db s' !! n =
         if decide (n ∈ map table_name (Py.range 1 13))
         then Some (default [] (db s !! n)) else db s !! n.
Proof.
  destruct (create_loop (Py.range 1 13) s) as (s1 & Hrun & Hf & Hc & Hp & Hdb).
  unfold create_tables. rewrite (bind_ok _ _ _ _ _ Hrun).
  eexists. split; [reflexivity |]. simpl. rewrite Hp. done.
Qed.

Lemma all_tables_exist_month (s : state) (month : nat) :
  all_tables_exist s -> 1 <= month <= 12 -> is_Some (db s !! table_name month).
Proof.
  intros Hall Hmonth. unfold all_tables_exist in Hall.
  rewrite Forall_forall in Hall. by apply Hall, elem_of_range_1_13.
Qed.

Lemma all_tables_exist_name (s : state) (n : string) :
  all_tables_exist s -> n ∈ map table_name (Py.range 1 13) -> is_Some (db s !! n).
Proof.
  intros Hall (month & -> & Hmonth)%list_elem_of_fmap.
  by apply all_tables_exist_month, elem_of_range_1_13.
Qed.

Lemma create_tables_no_op (t : state) :
  all_tables_exist t ->
  result create_tables t = Ok tt
  /\ db (exec create_tables t) = db t
  /\ files (exec create_tables t) = files t.
Proof.
  intros Hall. unfold result, exec.
  destruct (create_tables_spec t) as (t' & -> & Hf & _ & _ & Hdb). simpl.
  split_and!; try done.
  apply map_eq. intros n. rewrite Hdb. case_decide as Hn; [| done].
  by destruct (all_tables_exist_name t n Hall Hn) as [x ->].
Qed.

Lemma create_tables_all_exist (s : state) :
  all_tables_exist (exec create_tables s).
Proof.
  unfold exec. destruct (create_tables_spec s) as (s' & -> & _ & _ & _ & Hdb).
  simpl. apply Forall_forall. intros month Hmonth.
  rewrite Hdb, decide_True; [done |].
  apply list_elem_of_fmap. eauto.
Qed.

(** C7.  One run of [create_tables] does not fail and, for every month
    from 1 to 12, leaves a table of that month: the table it found, or an
    empty one where there was none; no table that existed is changed, and
    no file.  Run on a state in which the twelve tables exist, it changes
    neither the tables nor the files; in particular a second run changes
    nothing that the first has left. *)
Theorem create_tables_initialises_and_is_idempotent
    (s : state) (month : nat) (Hmonth : 1 <= month <= 12)
    (t : state) (Ht : all_tables_exist t) :
  (result create_tables s = Ok tt
   /\ db (exec create_tables s) !! table_name month
      = Some (default [] (db s !! table_name month))
   /\ (forall n rows, db s !! n = Some rows ->
                      db (exec create_tables s) !! n = Some rows)
   /\ files (exec create_tables s) = files s)
  /\ (result create_tables t = Ok tt
      /\ db (exec create_tables t) = db t
      /\ files (exec create_tables t) = files t)
  /\ db (exec create_tables (exec create_tables s)) = db (exec create_tables s).
Proof.
  split_and!.
  - unfold result. by destruct (create_tables_spec s) as (s' & -> & _).
  - unfold exec. destruct (create_tables_spec s) as (s' & -> & _ & _ & _ & Hdb).
    simpl. rewrite Hdb, decide_True; [done |].
    apply list_elem_of_fmap. exists month. by rewrite elem_of_range_1_13.
  - intros n rows Hn. unfold exec.
    destruct (create_tables_spec s) as (s' & -> & _ & _ & _ & Hdb).
    simpl. rewrite Hdb, Hn. by case_decide.
  - unfold exec. by destruct (create_tables_spec s) as (s' & -> & ? & _).
  - by apply create_tables_no_op.
  - by apply create_tables_no_op.
  - by apply create_tables_no_op.
  - apply create_tables_no_op, create_tables_all_exist.
Qed.

(** ** insert_data *)

Lemma insert_rows_fields (t : list row) (data : list expense) :
  map fields (insert_rows t data) = map fields t ++ data.
Proof.
  revert t. induction data as [|e data IH]; intros t; simpl.
  - by rewrite app_nil_r.
  - rewrite IH, map_app. simpl. by rewrite <- app_assoc.
Qed.

Lemma insert_rows_length (t : list row) (data : list expense) :
  length (insert_rows t data) = length t + length data.
Proof.
  rewrite <- (length_map fields), insert_rows_fields, length_app.
  by rewrite length_map.
Qed.


Lemma insert_month_spec (month : nat) (s : state) :
  exists s1,
    insert_month month s = (Ok tt, s1)
    /\ files s1 = files s /\ cursor s1 = cursor s
    /\ match files s !! file_path month with
       | Some data =>
           page s1 = page s
           /\ db s1 = <[table_name month :=
                          insert_rows (default [] (db s !! table_name month)) data]>
                        (db s)
       | None =>
           page s1 = page s ++ [missing_file_warning month] /\ db s1 = db s
       end.
Proof.
  unfold insert_month, mbind, script_bind, path_exists, pd_read_csv.
  destruct (files s !! file_path month) as [data|] eqn:Hfile.
  - rewrite bool_decide_eq_true_2 by eauto. simpl. rewrite Hfile.
    eexists. split; [reflexivity |]. done.
  - rewrite bool_decide_eq_false_2 by (by intros [? ?]). simpl.
    eexists. split; [reflexivity |]. done.
Qed.

Lemma insert_loop (months : list nat) (s : state) :
  NoDup (map table_name months) ->
  exists s',
    for_each months insert_month s = (Ok tt, s')
    /\ files s' = files s /\ cursor s' = cursor s
    /\ page s' = page s ++ missing_file_warnings (files s) months
    /\ (forall n, n ∉ map table_name months -> db s' !! n = db s !! n)
    /\ (forall month, month ∈ months ->
          db s' !! table_name month =
            match files s !! file_path month with
            | Some data =>
                Some (insert_rows (default [] (db s !! table_name month)) data)
            | None => db s !! table_name month
            end).
Proof.
  revert s. induction months as [|m months IH]; intros s Hnd.
  - exists s. split_and!; try done.
    + simpl. by rewrite app_nil_r.
    + by intros month ?%elem_of_nil.
  - simpl in Hnd. apply NoDup_cons in Hnd as [Hm Hnd].
    destruct (insert_month_spec m s) as (s1 & Hrun & Hf & Hc & Hstep).
    destruct (IH s1 Hnd) as (s' & Hrun' & Hf' & Hc' & Hp' & Hother & Hloaded).
    assert (Hdb1 : forall n, n ≠ table_name m -> db s1 !! n = db s !! n).
    { intros n Hn. destruct (files s !! file_path m).
      - destruct Hstep as [_ ->]. by rewrite lookup_insert_ne.
      - by destruct Hstep as [_ ->]. }
    assert (Hdbm : db s1 !! table_name m =
              match files s !! file_path m with
              | Some data =>
                  Some (insert_rows (default [] (db s !! table_name m)) data)
              | None => db s !! table_name m
              end).
    { destruct (files s !! file_path m).
      - destruct Hstep as [_ ->]. by rewrite lookup_insert_eq.
      - by destruct Hstep as [_ ->]. }
    exists s'. cbn [for_each]. rewrite (bind_ok _ _ _ _ _ Hrun).
    split_and!; try congruence.
    + rewrite Hp', Hf. simpl. destruct (files s !! file_path m).
      * destruct Hstep as [-> _]. done.
      * destruct Hstep as [-> _]. by rewrite <- app_assoc.
    + intros n Hn. simpl in Hn. apply not_elem_of_cons in Hn as [Hn1 Hn2].
      rewrite Hother by done. by apply Hdb1.
    + intros month [-> | Hin]%elem_of_cons.
      * rewrite Hother by done. exact Hdbm.
      * assert (table_name month ≠ table_name m) as Hne.
        { intros Heq. apply Hm. rewrite <- Heq. apply list_elem_of_fmap. eauto. }
        rewrite (Hloaded month Hin), Hf, (Hdb1 _ Hne). done.
Qed.

Lemma insert_data_spec (s : state) :
  exists s',
    insert_data s = (Ok tt, s')
    /\ files s' = files s /\ cursor s' = cursor s
    /\ page s' = page s ++ missing_file_warnings (files s) (Py.range 1 13)
                   ++ [Success "Data inserted into all available monthly tables."]
    /\ (forall n, n ∉ map table_name (Py.range 1 13) -> db s' !! n = db s !! n)
    /\ (forall month, 1 <= month <= 12 ->
          db s' !! table_name month =
            match files s !! file_path month with
            | Some data =>
                Some (insert_rows (default [] (db s !! table_name month)) data)
            | None => db s !! table_name month
            end).
Proof.
  destruct (insert_loop (Py.range 1 13) s table_names_NoDup)
    as (s1 & Hrun & Hf & Hc & Hp & Hother & Hloaded).
  unfold insert_data. rewrite (bind_ok _ _ _ _ _ Hrun).
  eexists. split; [reflexivity |]. simpl. split_and!; try done.
  - rewrite Hp. by rewrite <- app_assoc.
  - intros month Hmonth. by apply Hloaded, elem_of_range_1_13.
Qed.

Lemma stored_after_insert_data (s : state) (month : nat) (data : list expense) :
  1 <= month <= 12 ->
  files s !! file_path month = Some data ->
  stored (exec insert_data s) month = insert_rows (stored s month) data.
Proof.
  intros Hmonth Hfile. unfold stored, exec.
  destruct (insert_data_spec s) as (s' & -> & _ & _ & _ & _ & Hloaded).
  simpl. by rewrite (Hloaded month Hmonth), Hfile.
Qed.

Lemma files_after_insert_data (s : state) :
  files (exec insert_data s) = files s.
Proof.
  unfold exec. by destruct (insert_data_spec s) as (s' & -> & ? & _).
Qed.





(** ** Numbers of the generator *)

Lemma round_half_even_bounds (n d lo hi : Z) :
  (0 < d)%Z -> (lo * d <= n <= hi * d)%Z ->
  (lo <= round_half_even n d <= hi)%Z.
Proof.
  intros Hd [Hlo Hhi]. unfold round_half_even.
  pose proof (Z.div_mod n d ltac:(lia)) as Hdiv.
  pose proof (Z.mod_pos_bound n d Hd) as Hmod.
  assert (lo <= n / d)%Z by (apply Z.div_le_lower_bound; lia).
  assert (n / d <= hi)%Z by (apply Z.div_le_upper_bound; lia).
  assert (0 < n mod d -> n / d < hi)%Z by nia.
  destruct (2 * (n mod d) <? d)%Z eqn:E1; [lia |].
  apply Z.ltb_ge in E1.
  destruct (d <? 2 * (n mod d))%Z; [lia |].
  destruct (Z.even (n / d)); lia.
Qed.

Lemma unit_interval_bounds (raw : N) :
  (0 <= unit_interval raw)%Q /\ (unit_interval raw <= 1)%Q.
Proof.
  unfold unit_interval, Qle. simpl Qnum. simpl Qden.
  assert (raw mod 2 ^ 53 < 2 ^ 53)%N as Hlt by (by apply N.mod_lt).
  assert (Z.pos (2 ^ 53) = Z.of_N (2 ^ 53)) as -> by reflexivity.
  generalize dependent (raw mod 2 ^ 53)%N. generalize (2 ^ 53)%N. intros D k Hlt.
  lia.
Qed.

Lemma amount_paid_bounds (raw : N) :
  (1000 <= round2 (10 + (500 - 10) * unit_interval raw) <= 50000)%Z.
Proof.
  destruct (unit_interval_bounds raw) as [H0 H1].
  generalize dependent (unit_interval raw). intros u H0 H1.
  unfold round2. apply round_half_even_bounds; [done |].
  unfold Qle in *. simpl in *. lia.
Qed.

Lemma cashback_bounds (raw : N) :
  (0 <= round2 (0 + (20 - 0) * unit_interval raw) <= 2000)%Z.
Proof.
  destruct (unit_interval_bounds raw) as [H0 H1].
  generalize dependent (unit_interval raw). intros u H0 H1.
  unfold round2. apply round_half_even_bounds; [done |].
  unfold Qle in *. simpl in *. lia.
Qed.

(** ** generate_sample_data *)

Lemma draws_ret {A : Type} (a : A) (P : A -> Prop) : P a -> draws (mret a) P.
Proof. intros Ha s. by exists a, s. Qed.

Lemma draws_bind {A B : Type} (m : script A) (f : A -> script B)
    (P : A -> Prop) (Q : B -> Prop) :
  draws m P -> (forall a, P a -> draws (f a) Q) -> draws (m ≫= f) Q.
Proof.
  intros Hm Hf s.
  destruct (Hm s) as (a & s1 & Hrun & Hfiles & Hdb & Hpage & Ha).
  destruct (Hf a Ha s1) as (b & s2 & Hrun' & Hfiles' & Hdb' & Hpage' & Hb).
  exists b, s2. rewrite (bind_ok _ _ _ _ _ Hrun).
  split_and!; congruence.
Qed.

Lemma draws_next_raw (X : externals) : draws (next_raw X) (fun _ => True).
Proof. intros s. eexists _, _. by split; [reflexivity |]. Qed.

Lemma draws_random_choice (X : externals) (seq : list string) :
  seq ≠ [] -> draws (random_choice X seq) (fun x => x ∈ seq).
Proof.
  intros Hseq. unfold random_choice.
  apply (draws_bind _ _ _ _ (draws_next_raw X)). intros raw _.
  assert (N.to_nat (raw mod N.of_nat (length seq)) < length seq) as Hlt.
  { assert (N.of_nat (length seq) ≠ 0%N) by (destruct seq; [done | simpl; lia]).
    pose proof (N.mod_lt raw _ H). lia. }
  apply lookup_lt_is_Some in Hlt as [x Hx]. rewrite Hx.
  apply draws_ret. by eapply list_elem_of_lookup_2.
Qed.

Lemma draws_random_uniform (X : externals) (a b : Q) :
  draws (random_uniform X a b)
        (fun x => exists raw, x = (a + (b - a) * unit_interval raw)%Q).
Proof.
  unfold random_uniform.
  apply (draws_bind _ _ _ _ (draws_next_raw X)). intros raw _.
  apply draws_ret. by exists raw.
Qed.

Lemma draws_sample_record (X : externals) : draws (sample_record X) sample_ok.
Proof.
  unfold sample_record, fake_date_this_year, fake_sentence.
  eapply draws_bind.
  { eapply draws_bind; [apply draws_next_raw |].
    intros raw _. by apply (draws_ret _ (fun _ => True)). }
  intros date _.
  eapply draws_bind; [by apply draws_random_choice |]. intros category Hcat.
  eapply draws_bind; [by apply draws_random_choice |]. intros payment_mode Hpay.
  eapply draws_bind.
  { eapply draws_bind; [apply draws_next_raw |].
    intros raw _. by apply (draws_ret _ (fun _ => True)). }
  intros description _.
  eapply draws_bind; [apply draws_random_uniform |]. intros amount [raw1 ->].
  eapply draws_bind; [apply draws_random_uniform |]. intros cashback [raw2 ->].
  apply draws_ret. unfold sample_ok. simpl. split_and!.
  - by exists category.
  - by exists payment_mode.
  - eexists. split; [done |]. apply amount_paid_bounds.
  - eexists. split; [done |]. apply cashback_bounds.
Qed.

Lemma draws_collect {A : Type} (n : nat) (item : script A) (P : A -> Prop) :
  draws item P ->
  draws (collect n item) (fun data => length data = n /\ Forall P data).
Proof.
  intros Hitem. induction n as [|n IH]; simpl.
  - by apply draws_ret.
  - eapply draws_bind; [exact Hitem |]. intros x Hx.
    eapply draws_bind; [exact IH |]. intros rest [Hlen Hall].
    apply draws_ret. simpl. split; [by rewrite Hlen | by constructor].
Qed.

Lemma generate_month_spec (X : externals) (month : nat) (s : state) :
  exists data s1,
    generate_month X month s = (Ok tt, s1)
    /\ files s1 = <[file_path month := data]> (files s)
    /\ db s1 = db s /\ page s1 = page s
    /\ length data = 500 /\ Forall sample_ok data.
Proof.
  destruct (draws_collect 500 _ _ (draws_sample_record X) s)
    as (data & s0 & Hrun & Hfiles & Hdb & Hpage & Hlen & Hall).
  unfold generate_month. rewrite (bind_ok _ _ _ _ _ Hrun).
  exists data. eexists. split; [reflexivity |]. simpl.
  split_and!; congruence.
Qed.

Lemma generate_loop (X : externals) (months : list nat) (s : state) :
  NoDup (map file_path months) ->
  exists s',
    for_each months (generate_month X) s = (Ok tt, s')
    /\ db s' = db s /\ page s' = page s
    /\ (forall p, p ∉ map file_path months -> files s' !! p = files s !! p)
    /\ (forall month, month ∈ months ->
          exists data, files s' !! file_path month = Some data
                       /\ length data = 500 /\ Forall sample_ok data).
Proof.
  revert s. induction months as [|m months IH]; intros s Hnd.
  - exists s. split_and!; try done. by intros month ?%elem_of_nil.
  - simpl in Hnd. apply NoDup_cons in Hnd as [Hm Hnd].
    destruct (generate_month_spec X m s)
      as (data & s1 & Hrun & Hfiles & Hdb & Hpage & Hlen & Hall).
    destruct (IH s1 Hnd) as (s' & Hrun' & Hdb' & Hpage' & Hother & Hgen).
    exists s'. cbn [for_each]. rewrite (bind_ok _ _ _ _ _ Hrun).
    split_and!; try congruence.
    + intros p Hp. simpl in Hp. apply not_elem_of_cons in Hp as [Hp1 Hp2].
      by rewrite Hother, Hfiles, lookup_insert_ne.
    + intros month [-> | Hin]%elem_of_cons.
      * exists data. by rewrite Hother, Hfiles, lookup_insert_eq.
      * by apply Hgen.
Qed.

Lemma generate_sample_data_spec (X : externals) (s : state) :
  exists s',
    generate_sample_data X s = (Ok tt, s')
    /\ db s' = db s
    /\ page s' = page s ++ [Success "Sample data generated for all 12 months."]
    /\ (forall p, p ∉ map file_path (Py.range 1 13) -> files s' !! p = files s !! p)
    /\ (forall month, 1 <= month <= 12 ->
          exists data, files s' !! file_path month = Some data
                       /\ length data = 500 /\ Forall sample_ok data).
Proof.
  destruct (generate_loop X (Py.range 1 13) s file_paths_NoDup)
    as (s1 & Hrun & Hdb & Hpage & Hother & Hgen).
  unfold generate_sample_data. rewrite (bind_ok _ _ _ _ _ Hrun).
  eexists. split; [reflexivity |]. simpl. split_and!; try done.
  - by rewrite Hpage.
  - intros month Hmonth. by apply Hgen, elem_of_range_1_13.
Qed.

(** C10.  For every month from 1 to 12, whatever the random sources
    deliver and whatever the file held before, one run of
    [generate_sample_data] succeeds and leaves in the file of that month
    exactly 500 lines; each line has a category among Food,
    Transportation, Bills, Groceries, Subscriptions and Others, a payment
    mode among Cash and Online, an amount that is a whole number of
    hundredths between 10.00 and 500.00, and a cashback that is a whole
    number of hundredths between 0.00 and 20.00. *)
Theorem generate_sample_data_500_valid_records_per_month
    (X : externals) (s : state) (month : nat) (Hmonth : 1 <= month <= 12) :
  result (generate_sample_data X) s = Ok tt
  /\ exists data,
       files (exec (generate_sample_data X) s) !! file_path month = Some data
       /\ length data = 500
       /\ Forall (fun e =>
            (exists c, Category e = Some c
               /\ c ∈ ["Food"; "Transportation"; "Bills"; "Groceries";
                       "Subscriptions"; "Others"])
            /\ (exists p, Payment_Mode e = Some p /\ p ∈ ["Cash"; "Online"])
            /\ (exists a, Amount_Paid e = Some a /\ (1000 <= a <= 50000)%Z)
            /\ (exists b, Cashback e = Some b /\ (0 <= b <= 2000)%Z)) data.
Proof.
  unfold result, exec.
  destruct (generate_sample_data_spec X s) as (s' & -> & _ & _ & _ & Hgen).
  split; [done |]. exact (Hgen month Hmonth).
Qed.

(** ** Text and reading of the queries *)

Lemma monthly_tables_eq :
  monthly_tables =
    ["Expenses_01"; "Expenses_02"; "Expenses_03"; "Expenses_04";
     "Expenses_05"; "Expenses_06"; "Expenses_07"; "Expenses_08";
     "Expenses_09"; "Expenses_10"; "Expenses_11"; "Expenses_12"].
Proof. reflexivity. Qed.

Lemma total_spending_reading :
  Sql.sql_of (Sql.Select_totals monthly_tables) = total_spending_query.
Proof. reflexivity. Qed.

Lemma dashboard_reading_text (start_date end_date : Py.date)
    (category_filter payment_mode_filter : list string) :
  Sql.sql_of (dashboard_reading category_filter payment_mode_filter)
  = dashboard_query start_date end_date category_filter payment_mode_filter.
Proof.
  destruct category_filter, payment_mode_filter; reflexivity.
Qed.

Lemma pd_read_sql_query_reading (X : externals) (query : string)
    (reading : Sql.statement) (s : state) :
  Sql.sql_of reading = query ->
  pd_read_sql_query X query reading s
  = (Sql.run (sqlite_order_by X) (db s) reading, s).
Proof.
  intros H. unfold pd_read_sql_query. by rewrite decide_True.
Qed.

(** ** UNION ALL of the monthly tables *)

Lemma union_all_tables (d : gmap string (list row)) (months : list nat) :
  Forall (fun month => is_Some (d !! table_name month)) months ->
  Sql.union_all d (map table_name months)
  = Ok (concat (map (fun month => default [] (d !! table_name month)) months)).
Proof.
  induction 1 as [|month months [rows Hrows] _ IH]; [done |].
  simpl. by rewrite Hrows, IH.
Qed.

Lemma union_all_monthly_tables (s : state) :
  all_tables_exist s ->
  Sql.union_all (db s) monthly_tables = Ok (union_of_tables s).
Proof. intros H. by apply union_all_tables. Qed.

Lemma union_all_missing (d : gmap string (list row)) (tables : list string) :
  ¬ Forall (fun t => is_Some (d !! t)) tables ->
  exists t, t ∈ tables /\ d !! t = None
            /\ Sql.union_all d tables = Raised (DatabaseError_no_such_table t).
Proof.
  induction tables as [|t tables IH]; intros Hnot.
  - by destruct Hnot.
  - simpl. destruct (d !! t) as [rows|] eqn:Ht.
    + destruct IH as (t' & Hin & Hnone & ->).
      { intros Hall. apply Hnot. constructor; [by rewrite Ht | done]. }
      exists t'. split_and!; [by right | done | done].
    + exists t. split_and!; [by left | done | done].
Qed.

(** ** The date condition of the dashboard *)

Lemma between_braces_never_holds (r : row) :
  Sql.holds (Sql.Between Sql.Col_Date "{start_date}" "{end_date}") r = false.
Proof.
  simpl. destruct (Date (fields r)) as [x|]; [| done].
  apply andb_false_iff.
  destruct (String.leb "{start_date}" x) eqn:Hlow; [right | by left].
  destruct (String.leb x "{end_date}") eqn:Hhigh; [| done].
  assert (String.le "{start_date}" "{end_date}") as Habs.
  { transitivity x; unfold String.le; [by rewrite Hlow | by rewrite Hhigh]. }
  by vm_compute in Habs.
Qed.

Lemma filter_between_braces (and_ : list Sql.condition) (rows : list row) :
  List.filter
    (fun r =>
       Sql.holds (Sql.Between Sql.Col_Date "{start_date}" "{end_date}") r
       && forallb (fun w => Sql.holds w r) and_) rows = [].
Proof.
  induction rows as [|r rows IH]; [done |].
  cbn [List.filter]. by rewrite between_braces_never_holds.
Qed.

Lemma dashboard_run (X : externals) (d : gmap string (list row))
    (category_filter payment_mode_filter : list string) (rows : list row) :
  Sql.union_all d monthly_tables = Ok rows ->
  Sql.run (sqlite_order_by X) d
    (dashboard_reading category_filter payment_mode_filter)
  = Ok (Records []).
Proof.
  intros Hrows. unfold dashboard_reading. cbn [Sql.run]. rewrite Hrows.
  by rewrite filter_between_braces.
Qed.

(** ** SUM and GROUP BY *)















(** ** show_total_spending *)

Lemma show_total_spending_spec (X : externals) (s : state) :
  all_tables_exist s ->
  show_total_spending X s
  = (Ok tt,
     {| files := files s; db := db s; cursor := cursor s;
        page := page s ++
          [Subheader "Total Spending by Category";
           Dataframe
             (Totals (sqlite_order_by X (Sql.group_by_Category (union_of_tables s))));
           Altair_chart
             (Totals (sqlite_order_by X (Sql.group_by_Category (union_of_tables s))))]
     |}).
Proof.
  intros Hall. unfold show_total_spending.
  erewrite bind_ok; cycle 1.
  { rewrite (pd_read_sql_query_reading _ _ _ _ total_spending_reading).
    cbn [Sql.run]. by rewrite (union_all_monthly_tables s Hall). }
  unfold st_subheader, st_dataframe, st_altair_chart, st, mbind, script_bind.
  simpl. by rewrite <- !app_assoc.
Qed.

Lemma show_total_spending_missing_table (X : externals) (s : state) :
  ¬ all_tables_exist s ->
  exists t, t ∈ monthly_tables /\ db s !! t = None
    /\ show_total_spending X s = (Raised (DatabaseError_no_such_table t), s).
Proof.
  intros Hnot.
  destruct (union_all_missing (db s) monthly_tables) as (t & Hin & Hnone & Hrun).
  { intros Hall. apply Hnot. unfold all_tables_exist.
    unfold monthly_tables in Hall. by rewrite Forall_fmap in Hall. }
  exists t. split_and!; try done. unfold show_total_spending.
  erewrite bind_raised; [done |].
  rewrite (pd_read_sql_query_reading _ _ _ _ total_spending_reading).
  cbn [Sql.run]. by rewrite Hrun.
Qed.


(** ** ORDER BY *)

Lemma real_le_trans (x y z : option Z) :
  Sql.real_le x y -> Sql.real_le y z -> Sql.real_le x z.
Proof. destruct x, y, z; simpl; try done; lia. Qed.

Lemma real_le_total (x y : option Z) : Sql.real_le x y \/ Sql.real_le y x.
Proof. destruct x, y; simpl; try tauto; lia. Qed.

#[global] Instance by_Total_Spent_desc_trans : Transitive Sql.by_Total_Spent_desc.
Proof. intros a b c Hab Hbc. unfold Sql.by_Total_Spent_desc in *. by eapply real_le_trans. Qed.

#[global] Instance by_Total_Spent_desc_total : Total Sql.by_Total_Spent_desc.
Proof. intros a b. unfold Sql.by_Total_Spent_desc. apply real_le_total. Qed.




(** ** interactive_dashboard *)

Lemma interactive_dashboard_unfold (X : externals) (ui : widgets) (s : state) :
  let category_filter :=
    List.filter
      (fun x => bool_decide
         (x ∈ ["Food"; "Transportation"; "Bills"; "Groceries"; "Subscriptions";
               "Others"]))
      (multiselect ui "Select Categories") in
  let payment_mode_filter :=
    List.filter (fun x => bool_decide (x ∈ ["Cash"; "Online"]))
      (multiselect ui "Select Payment Modes") in
  let widgets_page :=
    page s ++
      [Multiselect "Select Categories"
         ["Food"; "Transportation"; "Bills"; "Groceries"; "Subscriptions"; "Others"];
       Multiselect "Select Payment Modes" ["Cash"; "Online"];
       Date_input "Start Date"; Date_input "End Date"] in
  interactive_dashboard X ui s
  = match Sql.run (sqlite_order_by X) (db s)
            (dashboard_reading category_filter payment_mode_filter) with
    | Ok df =>
        (Ok tt,
         {| files := files s; db := db s; cursor := cursor s;
            page := widgets_page ++
              [Subheader "Filtered Expenses"; Dataframe df;
               Download_button "Download Filtered Data as CSV" df
                 "filtered_expenses.csv" "text/csv"] |})
    | Raised e =>
        (Raised e,
         {| files := files s; db := db s; cursor := cursor s;
            page := widgets_page |})
    end.
Proof.
  intros category_filter payment_mode_filter widgets_page.
  unfold interactive_dashboard, st_sidebar_multiselect, st_sidebar_date_input.
  unfold mbind, script_bind, mret, script_ret, st. cbn [fst snd files db cursor page].
  fold category_filter. fold payment_mode_filter.
  rewrite pd_read_sql_query_reading by apply dashboard_reading_text.
  cbn [files db cursor page].
  destruct (Sql.run _ _ _) as [df | e].
  - unfold st_subheader, st_dataframe, st_download_button, st.
    cbn [files db cursor page]. subst widgets_page.
    by rewrite <- !app_assoc.
  - subst widgets_page. by rewrite <- !app_assoc.
Qed.

Lemma interactive_dashboard_always_empty (X : externals) (ui : widgets) (s : state) :
  all_tables_exist s ->
  interactive_dashboard X ui s
  = (Ok tt,
     {| files := files s; db := db s; cursor := cursor s;
        page := (page s ++
          [Multiselect "Select Categories"
             ["Food"; "Transportation"; "Bills"; "Groceries"; "Subscriptions";
              "Others"];
           Multiselect "Select Payment Modes" ["Cash"; "Online"];
           Date_input "Start Date"; Date_input "End Date"]) ++
          [Subheader "Filtered Expenses"; Dataframe (Records []);
           Download_button "Download Filtered Data as CSV" (Records [])
             "filtered_expenses.csv" "text/csv"] |}).
Proof.
  intros Hall. rewrite interactive_dashboard_unfold. cbv zeta.
  by rewrite (dashboard_run X (db s) _ _ _ (union_all_monthly_tables s Hall)).
Qed.

(** C1.  The dashboard run on the failing input: the twelve tables exist,
    January holds one record dated 2024-01-15, no category and no payment
    mode is selected, and the date range chosen is 2024-01-01 to
    2024-12-31, which covers that date.  The twelve tables together hold
    that one record, yet the data frame shown (and offered for download)
    is empty. *)
Theorem interactive_dashboard_empty_despite_covering_range (X : externals) :
  all_tables_exist one_lunch_loaded
  /\ union_of_tables one_lunch_loaded = [{| ID := 1; fields := lunch |}]
  /\ multiselect whole_year_2024 "Select Categories" = []
  /\ multiselect whole_year_2024 "Select Payment Modes" = []
  /\ Py.isoformat (date_input whole_year_2024 "Start Date") = "2024-01-01"
  /\ Py.isoformat (date_input whole_year_2024 "End Date") = "2024-12-31"
  /\ Date lunch = Some "2024-01-15"
  /\ String.le "2024-01-01" "2024-01-15" /\ String.le "2024-01-15" "2024-12-31"
  /\ exists widgets_page,
       interactive_dashboard X whole_year_2024 one_lunch_loaded
       = (Ok tt,
          {| files := files one_lunch_loaded; db := db one_lunch_loaded;
             cursor := cursor one_lunch_loaded;
             page := widgets_page ++
               [Subheader "Filtered Expenses"; Dataframe (Records []);
                Download_button "Download Filtered Data as CSV" (Records [])
                  "filtered_expenses.csv" "text/csv"] |}).
Proof.
  assert (Hall : all_tables_exist one_lunch_loaded) by compute_done.
  split_and!; try done; try compute_done.
  eexists. by apply interactive_dashboard_always_empty.
Qed.

Lemma dashboard_query_literal (start_date end_date : Py.date)
    (category_filter payment_mode_filter : list string) :
  exists before after,
    dashboard_query start_date end_date category_filter payment_mode_filter
    = before +:+ "WHERE Date BETWEEN '{start_date}' AND '{end_date}'" +:+ after.
Proof.
  exists (Py.nl +:+ "    SELECT *" +:+ Py.nl +:+ "    FROM (" +:+ Py.nl
          +:+ "        " +:+ union_of_months +:+ Py.nl +:+ "    ) AS Combined"
          +:+ Py.nl +:+ "    ").
  exists (Py.nl +:+ "    "
          +:+ match category_filter, payment_mode_filter with
              | [], [] => ""
              | _ :: _, [] =>
                  " AND Category IN ("
                  +:+ Py.join ", " (map (fun cat => "'" +:+ cat +:+ "'") category_filter)
                  +:+ ")"
              | [], _ :: _ =>
                  " AND Payment_Mode IN ("
                  +:+ Py.join ", "
                        (map (fun mode => "'" +:+ mode +:+ "'") payment_mode_filter)
                  +:+ ")"
              | _ :: _, _ :: _ =>
                  (" AND Category IN ("
                   +:+ Py.join ", " (map (fun cat => "'" +:+ cat +:+ "'") category_filter)
                   +:+ ")")
                  +:+ (" AND Payment_Mode IN ("
                       +:+ Py.join ", "
                             (map (fun mode => "'" +:+ mode +:+ "'") payment_mode_filter)
                       +:+ ")")
              end).
  destruct category_filter as [|c cs], payment_mode_filter as [|p ps];
    reflexivity.
Qed.

(** C2.  Two runs of the dashboard in the same state, with the same
    categories and the same payment modes selected, whatever the two date
    ranges chosen: the text of the query is the same, it contains the
    placeholders [{start_date}] and [{end_date}] as they are written in the
    source, and the two runs end alike, with the same page (hence the same
    data frame) or the same error. *)
Theorem interactive_dashboard_independent_of_date_range
    (X : externals) (ui1 ui2 : widgets) (s : state)
    (Hcategories :
       multiselect ui1 "Select Categories" = multiselect ui2 "Select Categories")
    (Hpayment_modes :
       multiselect ui1 "Select Payment Modes"
       = multiselect ui2 "Select Payment Modes") :
  (forall category_filter payment_mode_filter,
     dashboard_query (date_input ui1 "Start Date") (date_input ui1 "End Date")
       category_filter payment_mode_filter
     = dashboard_query (date_input ui2 "Start Date") (date_input ui2 "End Date")
         category_filter payment_mode_filter
     /\ exists before after,
          dashboard_query (date_input ui1 "Start Date") (date_input ui1 "End Date")
            category_filter payment_mode_filter
          = before +:+ "WHERE Date BETWEEN '{start_date}' AND '{end_date}'"
              +:+ after)
  /\ interactive_dashboard X ui1 s = interactive_dashboard X ui2 s.
Proof.
  split.
  - intros category_filter payment_mode_filter.
    split; [reflexivity | apply dashboard_query_literal].
  - rewrite !interactive_dashboard_unfold. cbv zeta.
    by rewrite Hcategories, Hpayment_modes.
Qed.

(** ** The page only grows *)

Lemma page_grows_ret {A : Type} (a : A) : page_grows (mret a).
Proof. intros s. exists []. by rewrite app_nil_r. Qed.

Lemma page_grows_bind {A B : Type} (m : script A) (f : A -> script B) :
  page_grows m -> (forall a, page_grows (f a)) -> page_grows (m ≫= f).
Proof.
  intros Hm Hf s. destruct (Hm s) as [rest Hrest]. unfold exec in *.
  unfold mbind, script_bind. destruct (m s) as [[a | e] s1]; simpl in *.
  - destruct (Hf a s1) as [rest' Hrest']. unfold exec in Hrest'.
    exists (rest ++ rest'). by rewrite Hrest', Hrest, app_assoc.
  - by exists rest.
Qed.

Lemma page_grows_same_page {A : Type} (m : script A) :
  (forall s, page (exec m s) = page s) -> page_grows m.
Proof. intros H s. exists []. by rewrite H, app_nil_r. Qed.

Lemma page_grows_st (c : element) : page_grows (st c).
Proof. intros s. by exists [c]. Qed.

Lemma page_grows_for_each {A : Type} (xs : list A) (body : A -> script unit) :
  (forall x, page_grows (body x)) -> page_grows (for_each xs body).
Proof.
  intros Hbody. induction xs as [|x xs IH]; simpl.
  - apply page_grows_ret.
  - by apply page_grows_bind.
Qed.

Lemma page_grows_collect {A : Type} (n : nat) (item : script A) :
  page_grows item -> page_grows (collect n item).
Proof.
  intros Hitem. induction n as [|n IH]; simpl.
  - apply page_grows_ret.
  - apply page_grows_bind; [done |]. intros x.
    apply page_grows_bind; [done |]. intros rest. apply page_grows_ret.
Qed.

Lemma page_grows_create_tables : page_grows create_tables.
Proof.
  intros s. unfold exec.
  destruct (create_tables_spec s) as (s' & -> & _ & _ & Hpage & _).
  simpl. rewrite Hpage. eauto.
Qed.

Lemma page_grows_insert_data : page_grows insert_data.
Proof.
  intros s. unfold exec.
  destruct (insert_data_spec s) as (s' & -> & _ & _ & Hpage & _).
  simpl. rewrite Hpage. eauto.
Qed.

Lemma page_grows_generate_sample_data (X : externals) :
  page_grows (generate_sample_data X).
Proof.
  intros s. unfold exec.
  destruct (generate_sample_data_spec X s) as (s' & -> & _ & Hpage & _).
  simpl. rewrite Hpage. eauto.
Qed.

Lemma page_grows_pd_read_sql_query (X : externals) (query : string)
    (reading : Sql.statement) :
  page_grows (pd_read_sql_query X query reading).
Proof.
  apply page_grows_same_page. intros s. unfold exec, pd_read_sql_query.
  by case_decide.
Qed.

Lemma page_grows_show_total_spending (X : externals) :
  page_grows (show_total_spending X).
Proof.
  unfold show_total_spending.
  apply page_grows_bind; [apply page_grows_pd_read_sql_query |]. intros df.
  repeat (apply page_grows_bind; [apply page_grows_st | intros _]).
  apply page_grows_st.
Qed.

Lemma page_grows_interactive_dashboard (X : externals) (ui : widgets) :
  page_grows (interactive_dashboard X ui).
Proof.
  intros s. unfold exec. rewrite interactive_dashboard_unfold. cbv zeta.
  destruct (Sql.run _ _ _); simpl; rewrite <- ?app_assoc; eauto.
Qed.

Lemma exec_bind_ok {A B : Type} (m : script A) (f : A -> script B) s a s' :
  m s = (Ok a, s') -> exec (m ≫= f) s = exec (f a) s'.
Proof. intros H. unfold exec. by rewrite (bind_ok _ _ _ _ _ H). Qed.

Lemma page_grows_application_choice (X : externals) (ui : widgets) (choice : string) :
  page_grows
    (if String.eqb choice "Generate Sample Data" then
       st_subheader "Generate Sample Data for Testing" ;;
       pressed ← st_button ui "Generate Data";
       if pressed : bool then generate_sample_data X else mret tt
     else if String.eqb choice "Create Tables" then
       st_subheader "Create Tables for Monthly Expenses" ;;
       pressed ← st_button ui "Create Tables";
       if pressed : bool then create_tables else mret tt
     else if String.eqb choice "Insert Data" then
       st_subheader "Insert Monthly Expense Data" ;;
       pressed ← st_button ui "Insert Data";
       if pressed : bool then insert_data else mret tt
     else if String.eqb choice "View Spending" then
       st_subheader "View Total Spending by Category" ;;
       show_total_spending X
     else if String.eqb choice "Interactive Dashboard" then
       st_subheader "Explore and Analyze Expenses" ;;
       interactive_dashboard X ui
     else mret tt).
Proof.
  assert (forall label, page_grows (st_button ui label)) as Hbutton.
  { intros label. unfold st_button.
    apply page_grows_bind; [apply page_grows_st | intros _; apply page_grows_ret]. }
  assert (forall text (action : script unit) label,
            page_grows action ->
            page_grows (st_subheader text ;;
                        pressed ← st_button ui label;
                        if pressed : bool then action else mret tt)) as Hbranch.
  { intros text action label Haction.
    apply page_grows_bind; [apply page_grows_st | intros _].
    apply page_grows_bind; [apply Hbutton | intros [|]]; [done |].
    apply page_grows_ret. }
  destruct (String.eqb choice "Generate Sample Data").
  { apply Hbranch, page_grows_generate_sample_data. }
  destruct (String.eqb choice "Create Tables").
  { apply Hbranch, page_grows_create_tables. }
  destruct (String.eqb choice "Insert Data").
  { apply Hbranch, page_grows_insert_data. }
  destruct (String.eqb choice "View Spending").
  { apply page_grows_bind; [apply page_grows_st | intros _].
    apply page_grows_show_total_spending. }
  destruct (String.eqb choice "Interactive Dashboard").
  { apply page_grows_bind; [apply page_grows_st | intros _].
    apply page_grows_interactive_dashboard. }
  apply page_grows_ret.
Qed.

Lemma application_renders_title (X : externals) (ui : widgets) (s : state) :
  exists rest,
    page (exec (application X ui) s)
    = page s ++ Title "Expense Tracker Application" :: Selectbox "Menu" menu :: rest.
Proof.
  unfold application.
  erewrite exec_bind_ok by reflexivity.
  erewrite exec_bind_ok by reflexivity.
  destruct (page_grows_application_choice X ui (selectbox ui "Menu")
              {| files := files s; db := db s; cursor := cursor s;
                 page := (page s ++ [Title "Expense Tracker Application"])
                           ++ [Selectbox "Menu" menu] |}) as [rest Hrest].
  exists rest. cbn [files db cursor page] in *. rewrite Hrest. cbn [page].
  by rewrite <- !app_assoc.
Qed.

(** C3.  The test that guards the application compares the two literals
    ["__name_ "] and ["__main__"], which differ: it is false.  Whatever the
    value of [__name__], whatever the user does and whatever the state,
    running the module therefore renders nothing and changes nothing: no
    title, no menu, none of the five actions. *)
Theorem entry_guard_is_false_and_application_never_runs
    (X : externals) (ui : widgets) (dunder_name : string) (s : state) :
  entry_guard = false
  /\ entry_guard = String.eqb "__name_ " "__main__"
  /\ module_body X ui dunder_name s = (Ok tt, s)
  /\ page (exec (module_body X ui dunder_name) s) = page s
  /\ page (exec (application X ui) s) ≠ page s.
Proof.
  split_and!; try reflexivity.
  destruct (application_renders_title X ui s) as [rest ->].
  intros Heq. apply (f_equal length) in Heq.
  rewrite length_app in Heq. simpl in Heq. lia.
Qed.

(** ** Names of the monthly tables *)

(** C9 (as amended).  For every month from 1 to 12 the table of
    [create_tables] is named [Expenses_] followed by the two digits of the
    month number, padded with a zero (month 3 gives [Expenses_03]); after a
    run that table exists, and a run on a store without tables leaves
    exactly the twelve tables [Expenses_01] to [Expenses_12]. *)
Theorem create_tables_names_are_Expenses_and_two_digits
    (s : state) (month : nat) (Hmonth : 1 <= month <= 12) :
  table_name month = "Expenses_" +:+ two_digits month
  /\ two_digits month = Py.format_02d month
  /\ is_Some (db (exec create_tables s) !! ("Expenses_" +:+ two_digits month))
  /\ (forall n, is_Some (db (exec create_tables empty_state) !! n)
                <-> n ∈ ["Expenses_01"; "Expenses_02"; "Expenses_03";
                         "Expenses_04"; "Expenses_05"; "Expenses_06";
                         "Expenses_07"; "Expenses_08"; "Expenses_09";
                         "Expenses_10"; "Expenses_11"; "Expenses_12"]).
Proof.
  split_and!.
  - by apply table_name_two_digits.
  - assert (Hm : month ∈ Py.range 1 13) by by apply elem_of_range_1_13.
    rewrite range_1_13 in Hm.
    repeat (apply elem_of_cons in Hm as [-> | Hm]; [reflexivity |]).
    by apply elem_of_nil in Hm.
  - rewrite <- table_name_two_digits by done.
    by apply all_tables_exist_month; [apply create_tables_all_exist |].
  - intros n. unfold exec.
    destruct (create_tables_spec empty_state) as (s' & -> & _ & _ & _ & Hdb).
    simpl. rewrite Hdb. fold monthly_tables. rewrite monthly_tables_eq.
    case_decide as Hn.
    + split; [done | by eexists].
    + split; [| done]. simpl. rewrite lookup_empty. by intros [? ?].
Qed.

(** C9, the claim as stated fails for month 3: the zero-padded month
    number is [03], but the table is named [Expenses_03]; after
    [create_tables] on a store without tables there is a table
    [Expenses_03] and none named [03]. *)
Lemma table_of_month_3_is_not_named_03 :
  Py.format_02d 3 = "03"
  /\ table_name 3 = "Expenses_03"
  /\ table_name 3 ≠ "03"
  /\ db (exec create_tables empty_state) !! "03" = None
  /\ is_Some (db (exec create_tables empty_state) !! "Expenses_03").
Proof. split_and!; try reflexivity; [done | by eexists]. Qed.

(** ** Lines with equal totals *)


(** * The theorems at concrete inputs *)

(** [create_tables] before and after the two files are loaded. *)
Lemma create_tables_initialises_and_is_idempotent_witness :
  1 <= 3 <= 12
  /\ all_tables_exist two_files_loaded
  /\ (result create_tables two_files = Ok tt
      /\ db (exec create_tables two_files) !! table_name 3
         = Some (default [] (db two_files !! table_name 3))
      /\ (forall n rows, db two_files !! n = Some rows ->
                         db (exec create_tables two_files) !! n = Some rows)
      /\ files (exec create_tables two_files) = files two_files)
  /\ (result create_tables two_files_loaded = Ok tt
      /\ db (exec create_tables two_files_loaded) = db two_files_loaded
      /\ files (exec create_tables two_files_loaded) = files two_files_loaded)
  /\ db (exec create_tables (exec create_tables two_files))
     = db (exec create_tables two_files).
Proof.
  assert (Hmonth : 1 <= 3 <= 12) by lia.
  assert (Htables : all_tables_exist two_files_loaded) by compute_done.
  exact (conj Hmonth (conj Htables
           (create_tables_initialises_and_is_idempotent
              two_files 3 Hmonth two_files_loaded Htables))).
Defined.



(** The name of the table of March. *)
Lemma create_tables_names_are_Expenses_and_two_digits_witness :
  1 <= 3 <= 12
  /\ table_name 3 = "Expenses_" +:+ two_digits 3
  /\ two_digits 3 = Py.format_02d 3
  /\ is_Some (db (exec create_tables empty_state) !! ("Expenses_" +:+ two_digits 3))
  /\ (forall n, is_Some (db (exec create_tables empty_state) !! n)
                <-> n ∈ ["Expenses_01"; "Expenses_02"; "Expenses_03";
                         "Expenses_04"; "Expenses_05"; "Expenses_06";
                         "Expenses_07"; "Expenses_08"; "Expenses_09";
                         "Expenses_10"; "Expenses_11"; "Expenses_12"]).
Proof.
  assert (Hmonth : 1 <= 3 <= 12) by lia.
  exact (conj Hmonth
           (create_tables_names_are_Expenses_and_two_digits empty_state 3 Hmonth)).
Defined.

(** The file of February after [generate_sample_data]. *)
Lemma generate_sample_data_500_valid_records_per_month_witness :
  1 <= 2 <= 12
  /\ result (generate_sample_data merge_sorting) empty_state = Ok tt
  /\ exists data,
       files (exec (generate_sample_data merge_sorting) empty_state) !! file_path 2
       = Some data
       /\ length data = 500
       /\ Forall (fun e =>
            (exists c, Category e = Some c
               /\ c ∈ ["Food"; "Transportation"; "Bills"; "Groceries";
                       "Subscriptions"; "Others"])
            /\ (exists p, Payment_Mode e = Some p /\ p ∈ ["Cash"; "Online"])
            /\ (exists a, Amount_Paid e = Some a /\ (1000 <= a <= 50000)%Z)
            /\ (exists b, Cashback e = Some b /\ (0 <= b <= 2000)%Z)) data.
Proof.
  assert (Hmonth : 1 <= 2 <= 12) by lia.
  exact (conj Hmonth
           (generate_sample_data_500_valid_records_per_month
              merge_sorting empty_state 2 Hmonth)).
Defined.



(** The dashboard with Food selected, for 2024 and for a day of 1999. *)
Lemma interactive_dashboard_independent_of_date_range_witness :
  multiselect food_in_2024 "Select Categories"
  = multiselect food_in_1999 "Select Categories"
  /\ multiselect food_in_2024 "Select Payment Modes"
     = multiselect food_in_1999 "Select Payment Modes"
  /\ date_input food_in_2024 "Start Date" ≠ date_input food_in_1999 "Start Date"
  /\ (forall category_filter payment_mode_filter,
        dashboard_query (date_input food_in_2024 "Start Date")
          (date_input food_in_2024 "End Date") category_filter payment_mode_filter
        = dashboard_query (date_input food_in_1999 "Start Date")
            (date_input food_in_1999 "End Date") category_filter payment_mode_filter
        /\ exists before after,
             dashboard_query (date_input food_in_2024 "Start Date")
               (date_input food_in_2024 "End Date")
               category_filter payment_mode_filter
             = before +:+ "WHERE Date BETWEEN '{start_date}' AND '{end_date}'"
                 +:+ after)
  /\ interactive_dashboard merge_sorting food_in_2024 two_files_loaded
     = interactive_dashboard merge_sorting food_in_1999 two_files_loaded.
Proof.
  assert (Hcategories : multiselect food_in_2024 "Select Categories"
                        = multiselect food_in_1999 "Select Categories")
    by reflexivity.
  assert (Hpayment_modes : multiselect food_in_2024 "Select Payment Modes"
                           = multiselect food_in_1999 "Select Payment Modes")
    by reflexivity.
  assert (Hdates : date_input food_in_2024 "Start Date"
                   ≠ date_input food_in_1999 "Start Date")
    by (vm_compute; discriminate).
  exact (conj Hcategories (conj Hpayment_modes (conj Hdates
           (interactive_dashboard_independent_of_date_range
              merge_sorting food_in_2024 food_in_1999 two_files_loaded
              Hcategories Hpayment_modes)))).
Defined.

(** * Further properties of the script *)

(** ** Queries on a store that lacks a table *)

(** X1.  When one of the twelve monthly tables does not exist,
    [show_total_spending] raises the database error of a table that is
    missing; it renders nothing (no heading, no data frame, no chart) and
    leaves the state as it was. *)
Theorem show_total_spending_raises_when_a_table_is_missing
    (X : externals) (s : state) (Hmissing : ¬ all_tables_exist s) :
  exists month,
    1 <= month <= 12
    /\ db s !! table_name month = None
    /\ show_total_spending X s
       = (Raised (DatabaseError_no_such_table (table_name month)), s).
Proof.
  destruct (show_total_spending_missing_table X s Hmissing)
    as (t & (month & -> & Hmonth)%list_elem_of_fmap & Hnone & Hrun).
  exists month. by rewrite <- elem_of_range_1_13.
Qed.

Lemma show_total_spending_raises_when_a_table_is_missing_witness :
  ¬ all_tables_exist two_files
  /\ exists month,
       1 <= month <= 12
       /\ db two_files !! table_name month = None
       /\ show_total_spending merge_sorting two_files
          = (Raised (DatabaseError_no_such_table (table_name month)), two_files).
Proof.
  assert (Hmissing : ¬ all_tables_exist two_files) by compute_done.
  exact (conj Hmissing
           (show_total_spending_raises_when_a_table_is_missing
              merge_sorting two_files Hmissing)).
Defined.

(** X2.  When one of the twelve monthly tables does not exist,
    [interactive_dashboard] renders its four widgets and then raises the
    database error of a table that is missing: no heading, no data frame
    and no download button follow, and files and tables are unchanged. *)
Theorem interactive_dashboard_raises_when_a_table_is_missing
    (X : externals) (ui : widgets) (s : state)
    (Hmissing : ¬ all_tables_exist s) :
  exists month,
    1 <= month <= 12
    /\ db s !! table_name month = None
    /\ interactive_dashboard X ui s
       = (Raised (DatabaseError_no_such_table (table_name month)),
          {| files := files s; db := db s; cursor := cursor s;
             page := page s ++
               [Multiselect "Select Categories"
                  ["Food"; "Transportation"; "Bills"; "Groceries";
                   "Subscriptions"; "Others"];
                Multiselect "Select Payment Modes" ["Cash"; "Online"];
                Date_input "Start Date"; Date_input "End Date"] |}).
Proof.
  destruct (union_all_missing (db s) monthly_tables)
    as (t & (month & -> & Hmonth)%list_elem_of_fmap & Hnone & Hrun).
  { intros Hall. apply Hmissing. unfold all_tables_exist.
    unfold monthly_tables in Hall. by rewrite Forall_fmap in Hall. }
  exists month. rewrite <- elem_of_range_1_13. split_and!; try done.
  rewrite interactive_dashboard_unfold. cbv zeta.
  unfold dashboard_reading. cbn [Sql.run]. by rewrite Hrun.
Qed.

Lemma interactive_dashboard_raises_when_a_table_is_missing_witness :
  ¬ all_tables_exist two_files
  /\ exists month,
       1 <= month <= 12
       /\ db two_files !! table_name month = None
       /\ interactive_dashboard merge_sorting food_in_2024 two_files
          = (Raised (DatabaseError_no_such_table (table_name month)),
             {| files := files two_files; db := db two_files;
                cursor := cursor two_files;
                page := page two_files ++
                  [Multiselect "Select Categories"
                     ["Food"; "Transportation"; "Bills"; "Groceries";
                      "Subscriptions"; "Others"];
                   Multiselect "Select Payment Modes" ["Cash"; "Online"];
                   Date_input "Start Date"; Date_input "End Date"] |}).
Proof.
  assert (Hmissing : ¬ all_tables_exist two_files) by compute_done.
  exact (conj Hmissing
           (interactive_dashboard_raises_when_a_table_is_missing
              merge_sorting food_in_2024 two_files Hmissing)).
Defined.

(** ** The dashboard never shows a record *)



(** ** Special cases of the aggregate *)








(** ** Without equal totals the aggregate is determined *)






(** ** What generate_sample_data touches *)

(** X7.  [generate_sample_data] changes no table and no file other than the
    twelve files [data/expenses_1.csv] to [data/expenses_12.csv], and
    renders its success message and nothing else. *)
Theorem generate_sample_data_touches_only_its_twelve_files
    (X : externals) (s : state) :
  db (exec (generate_sample_data X) s) = db s
  /\ page (exec (generate_sample_data X) s)
     = page s ++ [Success "Sample data generated for all 12 months."]
  /\ forall p,
       p ∉ ["data/expenses_1.csv"; "data/expenses_2.csv"; "data/expenses_3.csv";
            "data/expenses_4.csv"; "data/expenses_5.csv"; "data/expenses_6.csv";
            "data/expenses_7.csv"; "data/expenses_8.csv"; "data/expenses_9.csv";
            "data/expenses_10.csv"; "data/expenses_11.csv";
            "data/expenses_12.csv"] ->
       files (exec (generate_sample_data X) s) !! p = files s !! p.
Proof.
  unfold exec.
  destruct (generate_sample_data_spec X s) as (s' & -> & Hdb & Hpage & Hother & _).
  simpl. split_and!; try done.
Qed.

Lemma generate_sample_data_touches_only_its_twelve_files_witness :
  ("data/notes.csv"
     ∉ ["data/expenses_1.csv"; "data/expenses_2.csv"; "data/expenses_3.csv";
        "data/expenses_4.csv"; "data/expenses_5.csv"; "data/expenses_6.csv";
        "data/expenses_7.csv"; "data/expenses_8.csv"; "data/expenses_9.csv";
        "data/expenses_10.csv"; "data/expenses_11.csv"; "data/expenses_12.csv"])
  /\ db (exec (generate_sample_data merge_sorting) two_files_loaded)
     = db two_files_loaded
  /\ files (exec (generate_sample_data merge_sorting) two_files_loaded)
       !! "data/notes.csv"
     = files two_files_loaded !! "data/notes.csv".
Proof.
  assert (Hother :
    "data/notes.csv"
      ∉ ["data/expenses_1.csv"; "data/expenses_2.csv"; "data/expenses_3.csv";
         "data/expenses_4.csv"; "data/expenses_5.csv"; "data/expenses_6.csv";
         "data/expenses_7.csv"; "data/expenses_8.csv"; "data/expenses_9.csv";
         "data/expenses_10.csv"; "data/expenses_11.csv"; "data/expenses_12.csv"])
    by compute_done.
  pose proof (generate_sample_data_touches_only_its_twelve_files
                merge_sorting two_files_loaded) as (Hdb & _ & Hfiles).
  exact (conj Hother (conj Hdb (Hfiles "data/notes.csv" Hother))).
Defined.

(** ** Generate, create, insert *)

Lemma length_concat_constant {A B : Type} (f : A -> list B) (n : nat) (xs : list A) :
  (forall x, x ∈ xs -> length (f x) = n) ->
  length (concat (map f xs)) = length xs * n.
Proof.
  induction xs as [|x xs IH]; intros Hn; [done |].
  simpl. rewrite length_app, (Hn x) by left.
  rewrite IH by (intros ??; apply Hn; by right). lia.
Qed.

Lemma pipeline_month (X : externals) (s : state) (month : nat) :
  1 <= month <= 12 ->
  stored s month = [] ->
  exists data,
    length data = 500 /\ Forall sample_ok data
    /\ stored (exec insert_data (exec create_tables
                 (exec (generate_sample_data X) s))) month
       = insert_rows [] data
    /\ files (exec insert_data (exec create_tables
                 (exec (generate_sample_data X) s))) !! file_path month
       = Some data.
Proof.
  intros Hmonth Hfresh. unfold exec at 3 6.
  destruct (generate_sample_data_spec X s) as (s1 & -> & Hdb1 & _ & _ & Hgen).
  destruct (Hgen month Hmonth) as (data & Hfile & Hlen & Hok).
  assert (files (exec create_tables s1) = files s1) as Hfiles2.
  { unfold exec. by destruct (create_tables_spec s1) as (s2 & -> & ? & _). }
  exists data. split_and!; try done; simpl.
  - rewrite (stored_after_insert_data _ month data Hmonth).
    + f_equal. unfold stored, exec.
      destruct (create_tables_spec s1) as (s2 & -> & _ & _ & _ & Hdb2). simpl.
      rewrite Hdb2, decide_True, Hdb1.
      * exact Hfresh.
      * apply list_elem_of_fmap. exists month. by rewrite elem_of_range_1_13.
    + by rewrite Hfiles2.
  - by rewrite files_after_insert_data, Hfiles2.
Qed.

(** X8.  The three steps in their order, on a state whose monthly tables are
    absent or empty: after [generate_sample_data], [create_tables] and
    [insert_data] the twelve tables exist, the table of every month holds
    exactly the 500 lines generated for it (each of them within the
    categories, payment modes and bounds of the generator), and the twelve
    tables together hold 6000 records. *)
Theorem generate_create_insert_loads_500_records_per_month
    (X : externals) (s : state) (month : nat)
    (Hmonth : 1 <= month <= 12)
    (Hfresh : forall m, 1 <= m <= 12 -> stored s m = []) :
  all_tables_exist
    (exec insert_data (exec create_tables (exec (generate_sample_data X) s)))
  /\ length (stored (exec insert_data (exec create_tables
                       (exec (generate_sample_data X) s))) month) = 500
  /\ Forall sample_ok
       (map fields (stored (exec insert_data (exec create_tables
                              (exec (generate_sample_data X) s))) month))
  /\ files (exec insert_data (exec create_tables
              (exec (generate_sample_data X) s))) !! file_path month
     = Some (map fields (stored (exec insert_data (exec create_tables
                                   (exec (generate_sample_data X) s))) month))
  /\ length (union_of_tables
               (exec insert_data (exec create_tables
                  (exec (generate_sample_data X) s)))) = 12 * 500.
Proof.
  assert (Hlen : forall m, 1 <= m <= 12 ->
            length (stored (exec insert_data (exec create_tables
                              (exec (generate_sample_data X) s))) m) = 500).
  { intros m Hm. destruct (pipeline_month X s m Hm (Hfresh m Hm))
      as (data & Hlen & _ & -> & _).
    by rewrite insert_rows_length. }
  destruct (pipeline_month X s month Hmonth (Hfresh month Hmonth))
    as (data & _ & Hok & Hstored & Hfile).
  split_and!.
  - apply Forall_forall. intros m Hm%elem_of_range_1_13.
    specialize (Hlen m Hm). unfold stored in Hlen.
    destruct (db _ !! table_name m); [done | discriminate].
  - by apply Hlen.
  - by rewrite Hstored, insert_rows_fields.
  - by rewrite Hfile, Hstored, insert_rows_fields.
  - unfold union_of_tables.
    rewrite (length_concat_constant _ 500).
    + reflexivity.
    + intros m Hm%elem_of_range_1_13. by apply Hlen.
Qed.

Lemma generate_create_insert_loads_500_records_per_month_witness :
  1 <= 7 <= 12
  /\ (forall m, 1 <= m <= 12 -> stored empty_state m = [])
  /\ all_tables_exist
       (exec insert_data (exec create_tables
          (exec (generate_sample_data merge_sorting) empty_state)))
  /\ length (stored (exec insert_data (exec create_tables
                       (exec (generate_sample_data merge_sorting) empty_state))) 7)
     = 500
  /\ Forall sample_ok
       (map fields (stored (exec insert_data (exec create_tables
                              (exec (generate_sample_data merge_sorting)
                                    empty_state))) 7))
  /\ files (exec insert_data (exec create_tables
              (exec (generate_sample_data merge_sorting) empty_state)))
       !! file_path 7
     = Some (map fields (stored (exec insert_data (exec create_tables
                                   (exec (generate_sample_data merge_sorting)
                                         empty_state))) 7))
  /\ length (union_of_tables
               (exec insert_data (exec create_tables
                  (exec (generate_sample_data merge_sorting) empty_state))))
     = 12 * 500.
Proof.
  assert (Hmonth : 1 <= 7 <= 12) by lia.
  assert (Hfresh : forall m, 1 <= m <= 12 -> stored empty_state m = [])
    by (intros m _; reflexivity).
  exact (conj Hmonth (conj Hfresh
           (generate_create_insert_loads_500_records_per_month
              merge_sorting empty_state 7 Hmonth Hfresh))).
Defined.

(** ** Keys and records under insert_data *)








(** ** Insert Data without Create Tables *)



(** ** The application behind the guard *)

Lemma keeps_store_show_total_spending (X : externals) :
  keeps_store (show_total_spending X).
Proof.
  intros s. unfold exec. destruct (decide (all_tables_exist s)) as [Hall | Hnot].
  - by rewrite (show_total_spending_spec X s Hall).
  - by destruct (show_total_spending_missing_table X s Hnot) as (t & _ & _ & ->).
Qed.

Lemma keeps_store_interactive_dashboard (X : externals) (ui : widgets) :
  keeps_store (interactive_dashboard X ui).
Proof.
  intros s. unfold exec. rewrite interactive_dashboard_unfold. cbv zeta.
  by destruct (Sql.run _ _ _).
Qed.

Lemma page_grows_button_action (ui : widgets) (label : string)
    (action : script unit) :
  page_grows action ->
  page_grows (pressed ← st_button ui label;
              if pressed : bool then action else mret tt).
Proof.
  intros Haction. unfold st_button.
  apply page_grows_bind.
  - apply page_grows_bind; [apply page_grows_st | intros _; apply page_grows_ret].
  - intros [|]; [done | apply page_grows_ret].
Qed.

(** X12.  As long as none of the three buttons is pressed, the application
    changes neither the files nor the tables, whatever menu entry is
    selected and whether or not the queries of the two views succeed. *)
Theorem application_changes_nothing_unless_a_button_is_pressed
    (X : externals) (ui : widgets) (s : state)
    (Hgenerate : button ui "Generate Data" = false)
    (Hcreate : button ui "Create Tables" = false)
    (Hinsert : button ui "Insert Data" = false) :
  files (exec (application X ui) s) = files s
  /\ db (exec (application X ui) s) = db s.
Proof.
  unfold application.
  erewrite exec_bind_ok by reflexivity.
  erewrite exec_bind_ok by reflexivity.
  destruct (String.eqb (selectbox ui "Menu") "Generate Sample Data").
  { erewrite exec_bind_ok by reflexivity. erewrite exec_bind_ok by reflexivity.
    rewrite Hgenerate. by split. }
  destruct (String.eqb (selectbox ui "Menu") "Create Tables").
  { erewrite exec_bind_ok by reflexivity. erewrite exec_bind_ok by reflexivity.
    rewrite Hcreate. by split. }
  destruct (String.eqb (selectbox ui "Menu") "Insert Data").
  { erewrite exec_bind_ok by reflexivity. erewrite exec_bind_ok by reflexivity.
    rewrite Hinsert. by split. }
  destruct (String.eqb (selectbox ui "Menu") "View Spending").
  { erewrite exec_bind_ok by reflexivity.
    match goal with
    | |- context [exec _ ?s1] =>
        destruct (keeps_store_show_total_spending X s1) as [-> ->]
    end.
    by split. }
  destruct (String.eqb (selectbox ui "Menu") "Interactive Dashboard").
  { erewrite exec_bind_ok by reflexivity.
    match goal with
    | |- context [exec _ ?s1] =>
        destruct (keeps_store_interactive_dashboard X ui s1) as [-> ->]
    end.
    by split. }
  by split.
Qed.

Lemma application_changes_nothing_unless_a_button_is_pressed_witness :
  button viewing_spending "Generate Data" = false
  /\ button viewing_spending "Create Tables" = false
  /\ button viewing_spending "Insert Data" = false
  /\ files (exec (application merge_sorting viewing_spending) two_files_loaded)
     = files two_files_loaded
  /\ db (exec (application merge_sorting viewing_spending) two_files_loaded)
     = db two_files_loaded.
Proof.
  assert (Hgenerate : button viewing_spending "Generate Data" = false)
    by reflexivity.
  assert (Hcreate : button viewing_spending "Create Tables" = false)
    by reflexivity.
  assert (Hinsert : button viewing_spending "Insert Data" = false)
    by reflexivity.
  exact (conj Hgenerate (conj Hcreate (conj Hinsert
           (application_changes_nothing_unless_a_button_is_pressed
              merge_sorting viewing_spending two_files_loaded
              Hgenerate Hcreate Hinsert)))).
Defined.

(** X13.  Every entry of the menu reaches its own branch of the application:
    the five entries are the five strings the branches test for, and when
    an entry is selected the page shows the title, the menu and then the
    heading of that entry. *)
Theorem application_dispatches_every_menu_entry
    (X : externals) (ui : widgets) (s : state) (choice heading : string)
    (Hentry :
       (choice, heading)
         ∈ [("Generate Sample Data", "Generate Sample Data for Testing");
            ("Create Tables", "Create Tables for Monthly Expenses");
            ("Insert Data", "Insert Monthly Expense Data");
            ("View Spending", "View Total Spending by Category");
            ("Interactive Dashboard", "Explore and Analyze Expenses")])
    (Hchoice : selectbox ui "Menu" = choice) :
  menu = ["Generate Sample Data"; "Create Tables"; "Insert Data";
          "View Spending"; "Interactive Dashboard"]
  /\ choice ∈ menu
  /\ exists rest,
       page (exec (application X ui) s)
       = page s ++ Title "Expense Tracker Application" :: Selectbox "Menu" menu
           :: Subheader heading :: rest.
Proof.
  split; [reflexivity |].
  assert (forall (k : script unit) s0,
            page_grows k ->
            exists rest,
              page (exec (st_subheader heading ;; k)
                      {| files := files s0; db := db s0; cursor := cursor s0;
                         page := (page s0 ++ [Title "Expense Tracker Application"])
                                   ++ [Selectbox "Menu" menu] |})
              = page s0 ++ Title "Expense Tracker Application"
                  :: Selectbox "Menu" menu :: Subheader heading :: rest) as Hbranch.
  { intros k s0 Hk. erewrite exec_bind_ok by reflexivity.
    match goal with |- context [exec k ?s1] => destruct (Hk s1) as [rest ->] end.
    exists rest. cbn [page]. by rewrite <- !app_assoc. }
  unfold application.
  erewrite exec_bind_ok by reflexivity.
  erewrite exec_bind_ok by reflexivity.
  rewrite Hchoice.
  repeat (apply elem_of_cons in Hentry as [Hentry | Hentry];
          [injection Hentry as -> -> |]);
    [.. | by apply elem_of_nil in Hentry].
  - split; [compute_done |]. apply Hbranch.
    apply page_grows_button_action, page_grows_generate_sample_data.
  - split; [compute_done |]. apply Hbranch.
    apply page_grows_button_action, page_grows_create_tables.
  - split; [compute_done |]. apply Hbranch.
    apply page_grows_button_action, page_grows_insert_data.
  - split; [compute_done |]. apply Hbranch.
    apply page_grows_show_total_spending.
  - split; [compute_done |]. apply Hbranch.
    apply page_grows_interactive_dashboard.
Qed.

Lemma application_dispatches_every_menu_entry_witness :
  (("Insert Data", "Insert Monthly Expense Data")
     ∈ [("Generate Sample Data", "Generate Sample Data for Testing");
        ("Create Tables", "Create Tables for Monthly Expenses");
        ("Insert Data", "Insert Monthly Expense Data");
        ("View Spending", "View Total Spending by Category");
        ("Interactive Dashboard", "Explore and Analyze Expenses")])
  /\ selectbox (pressing "Insert Data") "Menu" = "Insert Data"
  /\ menu = ["Generate Sample Data"; "Create Tables"; "Insert Data";
             "View Spending"; "Interactive Dashboard"]
  /\ "Insert Data" ∈ menu
  /\ exists rest,
       page (exec (application merge_sorting (pressing "Insert Data")) two_files)
       = page two_files ++ Title "Expense Tracker Application"
           :: Selectbox "Menu" menu
           :: Subheader "Insert Monthly Expense Data" :: rest.
Proof.
  assert (Hentry :
    ("Insert Data", "Insert Monthly Expense Data")
      ∈ [("Generate Sample Data", "Generate Sample Data for Testing");
         ("Create Tables", "Create Tables for Monthly Expenses");
         ("Insert Data", "Insert Monthly Expense Data");
         ("View Spending", "View Total Spending by Category");
         ("Interactive Dashboard", "Explore and Analyze Expenses")])
    by compute_done.
  assert (Hchoice : selectbox (pressing "Insert Data") "Menu" = "Insert Data")
    by reflexivity.
  exact (conj Hentry (conj Hchoice
           (application_dispatches_every_menu_entry
              merge_sorting (pressing "Insert Data") two_files
              "Insert Data" "Insert Monthly Expense Data" Hentry Hchoice))).
Defined.

Lemma create_tables_db_ext (s1 s2 : state) :
  db s1 = db s2 -> db (exec create_tables s1) = db (exec create_tables s2).
Proof.
  intros Hdb. unfold exec.
  destruct (create_tables_spec s1) as (s1' & -> & _ & _ & _ & Hdb1).
  destruct (create_tables_spec s2) as (s2' & -> & _ & _ & _ & Hdb2).
  simpl. apply map_eq. intros n. by rewrite Hdb1, Hdb2, Hdb.
Qed.

Lemma insert_data_db_ext (s1 s2 : state) :
  db s1 = db s2 -> files s1 = files s2 ->
  db (exec insert_data s1) = db (exec insert_data s2).
Proof.
  intros Hdb Hfiles. unfold exec.
  destruct (insert_data_spec s1) as (s1' & -> & _ & _ & _ & Hother1 & Hloaded1).
  destruct (insert_data_spec s2) as (s2' & -> & _ & _ & _ & Hother2 & Hloaded2).
  simpl. apply map_eq. intros n.
  destruct (decide (n ∈ map table_name (Py.range 1 13))) as [Hin | Hnin].
  - apply list_elem_of_fmap in Hin as (month & -> & Hmonth%elem_of_range_1_13).
    by rewrite Hloaded1, Hloaded2, Hdb, Hfiles.
  - by rewrite Hother1, Hother2, Hdb.
Qed.

(** X14.  Pressing the button of Create Tables, or of Insert Data, in the
    application has on the tables the effect of [create_tables], or of
    [insert_data], run in the same state, and leaves the files as they
    are. *)
Theorem application_button_has_the_effect_of_its_action
    (X : externals) (ui : widgets) (s : state) :
  (selectbox ui "Menu" = "Create Tables" ->
   button ui "Create Tables" = true ->
   db (exec (application X ui) s) = db (exec create_tables s)
   /\ files (exec (application X ui) s) = files s)
  /\ (selectbox ui "Menu" = "Insert Data" ->
      button ui "Insert Data" = true ->
      db (exec (application X ui) s) = db (exec insert_data s)
      /\ files (exec (application X ui) s) = files s).
Proof.
  split; intros Hchoice Hpressed; unfold application;
    erewrite exec_bind_ok by reflexivity;
    erewrite exec_bind_ok by reflexivity;
    rewrite Hchoice; simpl (String.eqb _ _); cbv iota;
    erewrite exec_bind_ok by reflexivity;
    erewrite exec_bind_ok by reflexivity;
    rewrite Hpressed.
  - split; [by apply create_tables_db_ext |].
    unfold exec.
    match goal with
    | |- context [create_tables ?s1] =>
        destruct (create_tables_spec s1) as (s' & -> & Hfiles & _)
    end.
    simpl. by rewrite Hfiles.
  - split; [by apply insert_data_db_ext |].
    by rewrite files_after_insert_data.
Qed.

Lemma application_button_has_the_effect_of_its_action_witness :
  selectbox (pressing "Create Tables") "Menu" = "Create Tables"
  /\ button (pressing "Create Tables") "Create Tables" = true
  /\ selectbox (pressing "Insert Data") "Menu" = "Insert Data"
  /\ button (pressing "Insert Data") "Insert Data" = true
  /\ (db (exec (application merge_sorting (pressing "Create Tables")) two_files)
      = db (exec create_tables two_files)
      /\ files (exec (application merge_sorting (pressing "Create Tables")) two_files)
         = files two_files)
  /\ (db (exec (application merge_sorting (pressing "Insert Data")) two_files)
      = db (exec insert_data two_files)
      /\ files (exec (application merge_sorting (pressing "Insert Data")) two_files)
         = files two_files).
Proof.
  assert (Hchoice1 : selectbox (pressing "Create Tables") "Menu" = "Create Tables")
    by reflexivity.
  assert (Hpressed1 : button (pressing "Create Tables") "Create Tables" = true)
    by reflexivity.
  assert (Hchoice2 : selectbox (pressing "Insert Data") "Menu" = "Insert Data")
    by reflexivity.
  assert (Hpressed2 : button (pressing "Insert Data") "Insert Data" = true)
    by reflexivity.
  exact (conj Hchoice1 (conj Hpressed1 (conj Hchoice2 (conj Hpressed2
           (conj
              (proj1 (application_button_has_the_effect_of_its_action
                        merge_sorting (pressing "Create Tables") two_files)
                     Hchoice1 Hpressed1)
              (proj2 (application_button_has_the_effect_of_its_action
                        merge_sorting (pressing "Insert Data") two_files)
                     Hchoice2 Hpressed2)))))).
Defined.

(** ** The views after Create Tables *)



(** ** The aggregate of generated data *)




